(** * cookiecutter.generate: a shallow embedding and its specification

    The development follows [cookiecutter/generate.py]: context loading
    ([generate_context]), the file materialiser ([generate_file]), directory
    rendering ([render_and_create_dir], [ensure_dir_is_templated]) and the
    tree walker ([generate_files]).

    Python strings and file contents are byte strings ([string]); the file
    system is a tree of directories and regular files; every function that
    touches the file system threads a [World] and may raise a Python
    exception ([Raise]).  What the module calls and does not define (the
    JSON and YAML parsers, the binary detector, the template locator, hook
    scripts, the UTF-8 codec) is gathered in the classes [Parsers] and
    [Services]. *)

From Stdlib Require Import ZArith Ascii String List Bool Lia.
From stdpp Require Import base option list strings gmap pretty.

Set Warnings "-register-all".
Open Scope string_scope.
Open Scope Z_scope.

(** ** Outcomes of a call *)

Inductive errno := ENOENT | ENOTDIR | EISDIR | EACCES.

(** The exceptions the module lets escape.  [IOError] and [OSError] carry the
    errno of the failed system call; [HookExecutionError] carries the hook's
    name and exit status. *)
Inductive exn :=
| IOError (e : errno)
| OSError (e : errno)
| ValueError
| YAMLError
| AttributeError
| TypeError
| UnicodeDecodeError
| TemplateSyntaxError
| UndefinedError
| TemplateNotFound
| SameFileError
| NonTemplatedInputDirException
| FilesystemError (path : list string)
| HookExecutionError (hook : string) (status : Z).

(** Why the model, rather than the program, stops: the walk ran out of fuel,
    or the call needs something outside the modelled fragment (Jinja2 syntax
    beyond print statements, the permission bits of a directory). *)
Inductive limit := OutOfFuel | OutsideFragment.

Inductive outcome (A : Type) :=
| Ok (a : A)
| Raise (e : exn)
| Beyond (l : limit).
Arguments Ok {A} a.
Arguments Raise {A} e.
Arguments Beyond {A} l.

Definition obind {A B} (o : outcome A) (k : A -> outcome B) : outcome B :=
  match o with
  | Ok a => k a
  | Raise e => Raise e
  | Beyond l => Beyond l
  end.

Definition omap {A B} (f : A -> B) (o : outcome A) : outcome B :=
  obind o (fun a => Ok (f a)).

(** ** Python values and ordered dictionaries *)

Inductive value :=
| VStr (s : string)
| VInt (z : Z)
| VBool (b : bool)
| VNone
| VList (l : list value)
| VDict (d : list (string * value)).

(** A (possibly ordered) dictionary: keys in insertion order. *)
Abbreviation dict := (list (string * value)).

Fixpoint dict_get (k : string) (d : dict) : option value :=
  match d with
  | [] => None
  | (k', v) :: d' => if String.eqb k k' then Some v else dict_get k d'
  end.

(** [d[k] = v]: an existing key keeps its position, a new key goes last. *)
Fixpoint dict_set (k : string) (v : value) (d : dict) : dict :=
  match d with
  | [] => [(k, v)]
  | (k', v') :: d' =>
      if String.eqb k k' then (k, v) :: d' else (k', v') :: dict_set k v d'
  end.

(** [d.update(o)] for the items [o] of the other mapping, in their order. *)
Definition dict_update (d : dict) (o : list (string * value)) : dict :=
  fold_left (fun acc kv => dict_set (fst kv) (snd kv) acc) o d.

(** ** Strings *)

Definition cr : ascii := ascii_of_nat 13.
Definition lf : ascii := ascii_of_nat 10.
Definition tab : ascii := ascii_of_nat 9.

Fixpoint prefixb (p s : string) : bool :=
  match p, s with
  | EmptyString, _ => true
  | String a p', String b s' => Ascii.eqb a b && prefixb p' s'
  | String _ _, EmptyString => false
  end.

(** Python's [needle in s]. *)
Fixpoint contains (needle s : string) : bool :=
  prefixb needle s ||
  match s with
  | EmptyString => false
  | String _ s' => contains needle s'
  end.

(** Python's [s.split(sep)] for a one-character separator. *)
Fixpoint split_on (sep : ascii) (s : string) : list string :=
  match s with
  | EmptyString => [EmptyString]
  | String c s' =>
      if Ascii.eqb c sep then EmptyString :: split_on sep s'
      else match split_on sep s' with
           | [] => [String c EmptyString]
           | w :: ws => String c w :: ws
           end
  end.

(** Python's [sep.join(l)]. *)
Fixpoint join_with (sep : string) (l : list string) : string :=
  match l with
  | [] => EmptyString
  | [w] => w
  | w :: ws => w ++ sep ++ join_with sep ws
  end.

Definition last_char (s : string) : option ascii :=
  last (list_ascii_of_string s).

Definition has_cr (s : string) : bool := contains (String cr EmptyString) s.

(** ** [os.path] (POSIX flavour) *)

Module path.

Definition isabs (p : string) : bool := prefixb "/" p.

(** [os.path.join(a, b)]. *)
Definition join (a b : string) : string :=
  if isabs b then b
  else if String.eqb a "" then b
  else match last_char a with
       | Some c => if Ascii.eqb c "/" then a ++ b else a ++ "/" ++ b
       | None => b
       end.

(** The text after the last slash, and the text up to and including it. *)
Definition tail_of (p : string) : string :=
  List.last (split_on "/" p) "".

Definition head_of (p : string) : string :=
  substring 0 (String.length p - String.length (tail_of p)) p.

Fixpoint rstrip_slash_rev (l : list ascii) : list ascii :=
  match l with
  | c :: l' => if Ascii.eqb c "/" then rstrip_slash_rev l' else l
  | [] => []
  end.

Definition rstrip_slash (s : string) : string :=
  string_of_list_ascii (rev (rstrip_slash_rev (rev (list_ascii_of_string s)))).

(** [os.path.split(p)]: a head made only of slashes is kept as it is, any
    other head loses its trailing slashes. *)
Definition split (p : string) : string * string :=
  let head := head_of p in
  let stripped := rstrip_slash head in
  (if String.eqb stripped "" then head else stripped, tail_of p).

Definition basename (p : string) : string := tail_of p.

(** Index of the last occurrence of [c], when there is one. *)
Fixpoint rfind (c : ascii) (s : string) : option nat :=
  match s with
  | EmptyString => None
  | String a s' =>
      match rfind c s' with
      | Some i => Some (S i)
      | None => if Ascii.eqb a c then Some 0%nat else None
      end
  end.

Fixpoint all_dots (s : string) : bool :=
  match s with
  | EmptyString => true
  | String a s' => Ascii.eqb a "." && all_dots s'
  end.

(** [os.path.splitext(p)]: the extension starts at the last dot of the last
    component, unless only dots precede it there. *)
Definition splitext (p : string) : string * string :=
  let name := tail_of p in
  match rfind "." name with
  | None => (p, "")
  | Some i =>
      if all_dots (substring 0 i name) then (p, "")
      else let n := (String.length p - (String.length name - i))%nat in
           (substring 0 n p, substring n (String.length p - n) p)
  end.

(** The loop of [os.path.normpath] over the components. *)
Definition norm_step (rooted : bool) (acc : list string) (comp : string)
  : list string :=
  if String.eqb comp "" || String.eqb comp "." then acc
  else if negb (String.eqb comp "..")
          || (negb rooted && bool_decide (acc = []))
          || (match last acc with
              | Some l => String.eqb l ".."
              | None => false
              end)
       then acc ++ [comp]
       else removelast acc.

Definition normpath (p : string) : string :=
  if String.eqb p "" then "."
  else
    let slashes :=
      if prefixb "//" p && negb (prefixb "///" p) then "//"
      else if prefixb "/" p then "/" else "" in
    let comps :=
      fold_left (norm_step (isabs p)) (split_on "/" p) [] in
    let s := slashes ++ join_with "/" comps in
    if String.eqb s "" then "." else s.

(** [os.path.abspath(p)] in the working directory [cwd]. *)
Definition abspath (cwd p : string) : string :=
  normpath (if isabs p then p else join cwd p).

End path.

(** ** The file system *)

(** A regular file holds its bytes and its permission bits; a directory
    holds its entries in listing order. *)
Inductive node :=
| File (data : string) (mode : Z)
| Dir (entries : list (string * node)).

Fixpoint entry_get (name : string) (es : list (string * node)) : option node :=
  match es with
  | [] => None
  | (n, x) :: es' => if String.eqb name n then Some x else entry_get name es'
  end.

(** Replace the entry called [name], or append it to the listing. *)
Fixpoint entry_set (name : string) (x : node) (es : list (string * node))
  : list (string * node) :=
  match es with
  | [] => [(name, x)]
  | (n, y) :: es' =>
      if String.eqb name n then (n, x) :: es' else (n, y) :: entry_set name x es'
  end.

(** The node at an absolute path given by its components, root first. *)
Fixpoint lookup_node (p : list string) (t : node) : option node :=
  match p with
  | [] => Some t
  | c :: p' =>
      match t with
      | Dir es =>
          match entry_get c es with
          | Some x => lookup_node p' x
          | None => None
          end
      | File _ _ => None
      end
  end.

(** Rewrite the node at [p]: [f] receives what is there ([None] when the last
    component is missing from an existing parent directory). *)
Fixpoint alter_node (f : option node -> errno + node) (p : list string)
  (t : node) : errno + node :=
  match p with
  | [] => f (Some t)
  | c :: p' =>
      match t with
      | File _ _ => inl ENOTDIR
      | Dir es =>
          match entry_get c es, p' with
          | None, [] =>
              match f None with
              | inr x => inr (Dir (entry_set c x es))
              | inl e => inl e
              end
          | None, _ :: _ => inl ENOENT
          | Some x, _ =>
              match alter_node f p' x with
              | inr x' => inr (Dir (entry_set c x' es))
              | inl e => inl e
              end
          end
      end
  end.

(** Create the directory at [p] and every missing ancestor; an existing
    directory is left as it is; [None] when a regular file is in the way. *)
Fixpoint mkdirs (p : list string) (t : node) : option node :=
  match t with
  | File _ _ => None
  | Dir es =>
      match p with
      | [] => Some t
      | c :: p' =>
          match mkdirs p' (default (Dir []) (entry_get c es)) with
          | Some x => Some (Dir (entry_set c x es))
          | None => None
          end
      end
  end.

(** A rewriting function that leaves directories alone. *)
Definition dir_stable (f : option node -> errno + node) : Prop :=
  forall es x, f (Some (Dir es)) = inr x -> x = Dir es.

Definition is_dir (o : option node) : bool :=
  match o with Some (Dir _) => true | _ => false end.

(** [stat.S_IMODE]: the twelve permission bits. *)
Definition S_IMODE (mode : Z) : Z := Z.land mode 4095.

(** The process owns the files it reads: the owner-read bit decides. *)
Definition readable (mode : Z) : bool := Z.testbit mode 8.

(** ** The world a call runs in *)

Record World := mkWorld {
  tree : node;              (* the file system, from its root *)
  cwd : list string;        (* the working directory, components root first *)
  umask : Z                 (* the process's file-creation mask *)
}.

(** Kernel path resolution against the working directory.  There are no
    symbolic links, so [..] steps back lexically. *)
Definition resolve_step (acc : list string) (comp : string) : list string :=
  if String.eqb comp "" || String.eqb comp "." then acc
  else if String.eqb comp ".." then removelast acc
  else acc ++ [comp].

Definition resolve (w : World) (p : string) : list string :=
  fold_left resolve_step (split_on "/" p) (if path.isabs p then [] else cwd w).

Definition stat (w : World) (p : string) : option node :=
  lookup_node (resolve w p) (tree w).

(** [os.getcwd()]. *)
Definition getcwd (w : World) : string := "/" ++ join_with "/" (cwd w).

(** [os.path.exists(p)]. *)
Definition exists_ (w : World) (p : string) : bool :=
  bool_decide (is_Some (stat w p)).

(** [os.path.isdir(p)]. *)
Definition isdir (w : World) (p : string) : bool := is_dir (stat w p).

(** [os.listdir(p)]; [None] when [p] is not a directory. *)
Definition listdir (w : World) (p : string) : option (list string) :=
  match stat w p with
  | Some (Dir es) => Some (map fst es)
  | _ => None
  end.

(** [open(p).read()]: the bytes of a readable regular file. *)
Definition read_file (w : World) (p : string) : outcome string :=
  match stat w p with
  | Some (File data mode) =>
      if readable mode then Ok data else Raise (IOError EACCES)
  | Some (Dir _) => Raise (IOError EISDIR)
  | None => Raise (IOError ENOENT)
  end.

(** ** Stateful computations: a state and exception monad over [World] *)

Definition M (A : Type) : Type := World -> outcome A * World.

Definition ret {A} (a : A) : M A := fun w => (Ok a, w).
Definition beyond {A} (l : limit) : M A := fun w => (Beyond l, w).

Definition bind {A B} (m : M A) (k : A -> M B) : M B :=
  fun w =>
    match m w with
    | (Ok a, w') => k a w'
    | (Raise e, w') => (Raise e, w')
    | (Beyond l, w') => (Beyond l, w')
    end.

(** A computation that only reads the world. *)
Definition lift {A} (f : World -> outcome A) : M A := fun w => (f w, w).

Declare Scope m_scope.
Delimit Scope m_scope with M.
Notation "'do' x <- c1 ; c2" := (bind c1 (fun x => c2))
  (at level 10, x name, c1 at level 100, c2 at level 200) : m_scope.
Notation "'run' c1 ; c2" := (bind c1 (fun _ => c2))
  (at level 10, c1 at level 100, c2 at level 200) : m_scope.

(** A [for] loop whose body may raise. *)
Fixpoint for_each {A} (body : A -> M unit) (l : list A) : M unit :=
  match l with
  | [] => ret tt
  | x :: l' => (run body x; for_each body l')%M
  end.

(** ** Context resolver: [generate_context] *)

(** The parsers behind [json.load(..., object_pairs_hook=OrderedDict)] and
    [ordered_load(..., yaml.SafeLoader, OrderedDict)]: from the bytes of the
    file to the document's value, or to the parser's exception. *)
Class Parsers := {
  json_load : string -> outcome value;
  yaml_load : string -> outcome value
}.

Section ContextResolver.

Context {parsers : Parsers}.

(** Lines 60-64: the file that is opened. *)
Definition context_source (context_file : option string) (w : World) : string :=
  let context_file := default "cookiecutter.json" context_file in
  if negb (exists_ w context_file) && exists_ w "cookiecutter.yml"
  then "cookiecutter.yml"
  else context_file.

Definition file_ext_of (context_file : string) : string :=
  snd (path.splitext (path.basename context_file)).

(** Lines 58-78: [context] after the [with open(...)] block. *)
Definition load_context (context_file : option string) (w : World)
  : outcome value :=
  let context := VDict [] in
  let context_file := context_source context_file w in
  let file_ext := file_ext_of context_file in
  obind (read_file w context_file) (fun data =>
    if String.eqb file_ext ".json" then json_load data
    else if String.eqb file_ext ".yml" then yaml_load data
    else Ok context).

(** Python truth of [default_context]: neither [None] nor empty. *)
Definition truthy (default_context : option (gmap string value)) : bool :=
  match default_context with
  | Some o => negb (bool_decide (o = ∅))
  | None => false
  end.

(** Lines 82-83: [context.update(default_context)]; only mappings have
    [update].  The overlay is a plain [dict], whose iteration order the
    language the module targets leaves unspecified: its items are taken in
    the finite map's order, so the relative order of the keys that only the
    overlay has is not the overlay's own. *)
Definition apply_defaults (default_context : option (gmap string value))
  (context : value) : outcome value :=
  if truthy default_context then
    match context with
    | VDict d =>
        Ok (VDict (dict_update d (map_to_list (default ∅ default_context))))
    | _ => Raise AttributeError
    end
  else Ok context.

Definition generate_context (context_file : option string)
  (default_context : option (gmap string value)) (w : World) : outcome value :=
  obind (load_context context_file w) (apply_defaults default_context).

End ContextResolver.

(** Loaders given by a table of known documents, for the examples. *)
Definition table_load (known : list (string * value)) (e : exn) (data : string)
  : outcome value :=
  match list_find (fun kv => fst kv = data) known with
  | Some (_, (_, v)) => Ok v
  | None => Raise e
  end.

Definition sample_json : string -> outcome value :=
  table_load [("{}", VDict []); ("[]", VList [])] ValueError.

Definition sample_yaml : string -> outcome value :=
  table_load [("project_name: demo", VDict [("project_name", VStr "demo")]);
              ("author: {name: Ann, email: ann@example.org}",
               VDict [("author", VDict [("name", VStr "Ann");
                                        ("email", VStr "ann@example.org")])]);
              ("{}", VDict [])] YAMLError.

Definition sample_parsers : Parsers :=
  {| json_load := sample_json; yaml_load := sample_yaml |}.

(** ** The render service: a fragment of Jinja2

    The module renders a path with [Template(s).render(context)] and a
    file through [env.get_template(name).render(context)].  The fragment
    modelled here is literal text and print statements of one variable,
    [{{ name }}]; block tags, comments and any other expression are
    [OutsideFragment]. *)

Module jinja.

(** The settings of an [Environment] that the fragment depends on, and the
    search path of its [FileSystemLoader]. *)
Record Environment := mkEnvironment {
  searchpath : string;
  keep_trailing_newline : bool;
  strict_undefined : bool
}.

(** [Environment()] followed by [env.loader = FileSystemLoader(sp)]: a
    trailing newline is dropped, and an undefined variable is jinja2's
    lenient [Undefined]. *)
Definition default_environment (sp : string) : Environment :=
  {| searchpath := sp; keep_trailing_newline := false;
     strict_undefined := false |}.

Inductive piece :=
| Data (text : string)
| Print (name : string).

(** The lexer first splits the source at [\r\n], [\r] and [\n] and joins
    the lines again with [\n] ... *)
Fixpoint unify_newlines (s : string) : string :=
  match s with
  | EmptyString => EmptyString
  | String a s' =>
      if Ascii.eqb a cr then
        match s' with
        | String b s'' =>
            if Ascii.eqb b lf then String lf (unify_newlines s'')
            else String lf (unify_newlines s')
        | EmptyString => String lf EmptyString
        end
      else String a (unify_newlines s')
  end.

(** ... leaving out the last line when it is empty, unless the environment
    keeps the trailing newline. *)
Fixpoint drop_final_newline (s : string) : string :=
  match s with
  | EmptyString => EmptyString
  | String a EmptyString =>
      if Ascii.eqb a lf then EmptyString else s
  | String a s' => String a (drop_final_newline s')
  end.

Definition preprocess (keep : bool) (source : string) : string :=
  let s := unify_newlines source in
  if keep then s else drop_final_newline s.

Definition is_space (a : ascii) : bool :=
  Ascii.eqb a " " || Ascii.eqb a tab || Ascii.eqb a lf.

Definition is_name_start (a : ascii) : bool :=
  let n := nat_of_ascii a in
  ((65 <=? n) && (n <=? 90) || (97 <=? n) && (n <=? 122) || (n =? 95))%nat.

Definition is_name_char (a : ascii) : bool :=
  let n := nat_of_ascii a in
  (is_name_start a || (48 <=? n) && (n <=? 57))%nat.

(** Names the parser or the default namespace gives a meaning of their own:
    constants, operators, and the globals every environment defines. *)
Definition reserved : list string :=
  ["true"; "false"; "none"; "True"; "False"; "None"; "not"; "and"; "or";
   "in"; "is"; "if"; "else"; "self"; "super"; "loop"; "varargs"; "kwargs";
   "caller"; "context"; "range"; "dict"; "lipsum"; "cycler"; "joiner";
   "namespace"; "_"].

Fixpoint ltrim (l : list ascii) : list ascii :=
  match l with
  | a :: l' => if is_space a then ltrim l' else l
  | [] => []
  end.

Definition trim (l : list ascii) : list ascii :=
  rev (ltrim (rev (ltrim l))).

(** The variable a print statement names, when its body is one name. *)
Definition parse_name (body : list ascii) : option string :=
  match trim body with
  | a :: l =>
      let name := string_of_list_ascii (a :: l) in
      if is_name_start a && forallb is_name_char l
         && negb (bool_decide (name ∈ reserved))
      then Some name else None
  | [] => None
  end.

Definition add_data (a : ascii) (ps : list piece) : list piece :=
  match ps with
  | Data d :: ps' => Data (String a d) :: ps'
  | _ => Data (String a EmptyString) :: ps
  end.

(** [lex] reads data up to the next opening marker; [lex_print body] reads
    the body of a print statement up to the closing braces. *)
Fixpoint lex (s : string) : outcome (list piece) :=
  match s with
  | EmptyString => Ok []
  | String a s' =>
      if Ascii.eqb a "{" then
        match s' with
        | String b s'' =>
            if Ascii.eqb b "{" then lex_print [] s''
            else if Ascii.eqb b "%" || Ascii.eqb b "#"
                 then Beyond OutsideFragment
                 else omap (add_data a) (lex s')
        | EmptyString => Ok [Data (String a EmptyString)]
        end
      else omap (add_data a) (lex s')
  end
with lex_print (body : list ascii) (s : string) : outcome (list piece) :=
  match s with
  | EmptyString => Raise TemplateSyntaxError
  | String a s' =>
      if Ascii.eqb a "}" then
        match s' with
        | String b s'' =>
            if Ascii.eqb b "}" then
              match parse_name body with
              | Some name => omap (cons (Print name)) (lex s'')
              | None => Beyond OutsideFragment
              end
            else lex_print (body ++ [a]) s'
        | EmptyString => Raise TemplateSyntaxError
        end
      else lex_print (body ++ [a]) s'
  end.

(** [str(v)] as the template prints it; sequences and mappings are outside
    the fragment. *)
Definition to_text (v : value) : outcome string :=
  match v with
  | VStr s => Ok s
  | VInt z => Ok (pretty z)
  | VBool b => Ok (if b then "True" else "False")
  | VNone => Ok "None"
  | VList _ | VDict _ => Beyond OutsideFragment
  end.

Definition render_piece (strict : bool) (context : dict) (p : piece)
  : outcome string :=
  match p with
  | Data d => Ok d
  | Print x =>
      match dict_get x context with
      | Some v => to_text v
      | None => if strict then Raise UndefinedError else Ok ""
      end
  end.

Fixpoint render_pieces (strict : bool) (context : dict) (ps : list piece)
  : outcome string :=
  match ps with
  | [] => Ok ""
  | p :: ps' =>
      obind (render_piece strict context p) (fun a =>
      obind (render_pieces strict context ps') (fun b => Ok (a ++ b)))
  end.

(** A compiled template: its pieces and the undefined policy it renders
    with. *)
Record Template := mkTemplate { pieces : list piece; strict : bool }.

Definition compile (keep strict : bool) (source : string) : outcome Template :=
  omap (fun ps => mkTemplate ps strict) (lex (preprocess keep source)).

(** [Template(source)]: compiled with the library's default settings. *)
Definition from_string (source : string) : outcome Template :=
  compile false false source.

(** [tmpl.render(context)], the context unpacked into keyword arguments:
    a context key named [self] collides with the parameter [self] of the
    method, and the call raises [TypeError] before anything is rendered. *)
Definition render (t : Template) (context : dict) : outcome string :=
  match dict_get "self" context with
  | Some _ => Raise TypeError
  | None => render_pieces (strict t) context (pieces t)
  end.

(** The opening markers of the template syntax. *)
Definition has_marker (s : string) : bool :=
  contains "{{" s || contains "{%" s || contains "{#" s.

(** An opening marker at the very start of [s]. *)
Definition marker_here (s : string) : bool :=
  match s with
  | String a (String b _) =>
      Ascii.eqb a "{" && (Ascii.eqb b "{" || Ascii.eqb b "%" || Ascii.eqb b "#")
  | _ => false
  end.


End jinja.

(** ** File-system operations of the generator *)

Definition set_tree (t : node) (w : World) : World :=
  {| tree := t; cwd := cwd w; umask := umask w |}.

Definition set_cwd (d : list string) (w : World) : World :=
  {| tree := tree w; cwd := d; umask := umask w |}.

(** The process owns the files it writes: the owner-write bit decides. *)
Definition writable (mode : Z) : bool := Z.testbit mode 7.

(** What [open(p, 'w')] followed by [write(data)] leaves at [p]: an existing
    file keeps its mode, a new one gets [0666 & ~umask]. *)
Definition written (data : string) (mask : Z) (old : option node)
  : errno + node :=
  match old with
  | Some (Dir _) => inl EISDIR
  | Some (File _ mode) =>
      if writable mode then inr (File data mode) else inl EACCES
  | None => inr (File data (Z.land 438 (Z.lnot mask)))
  end.

Definition write_file (p : string) (data : string) : M unit :=
  fun w =>
    match alter_node (written data (umask w)) (resolve w p) (tree w) with
    | inr t => (Ok tt, set_tree t w)
    | inl e => (Raise (IOError e), w)
    end.

(** What [os.chmod(p, mode)] leaves at [p]; directories carry no permission
    bits in this model. *)
Definition chmodded (mode : Z) (old : option node) : errno + node :=
  match old with
  | Some (File data _) => inr (File data mode)
  | Some (Dir es) => inr (Dir es)
  | None => inl ENOENT
  end.

Definition chmod (p : string) (mode : Z) : M unit :=
  fun w =>
    match alter_node (chmodded mode) (resolve w p) (tree w) with
    | inr t => (Ok tt, set_tree t w)
    | inl e => (Raise (OSError e), w)
    end.

(** [shutil.copyfile(src, dst)]: refuses to copy a file onto itself, then
    reads [src] and writes [dst]. *)
Definition copyfile (src dst : string) : M unit :=
  fun w =>
    if bool_decide (resolve w src = resolve w dst) && exists_ w src
    then (Raise SameFileError, w)
    else (do data <- lift (fun w => read_file w src);
          write_file dst data)%M w.

(** [shutil.copymode(src, dst)]: [chmod(dst, S_IMODE(stat(src).st_mode))]. *)
Definition copymode (src dst : string) : M unit :=
  fun w =>
    match stat w src with
    | Some (File _ mode) => chmod dst (S_IMODE mode) w
    | Some (Dir _) => (Beyond OutsideFragment, w)
    | None => (Raise (OSError ENOENT), w)
    end.

(** Modelled from the spec: [utils.make_sure_path_exists], which is not among
    the sources.  Section 4.3: it creates the resulting directory and all
    missing intermediate ancestors; a pre-existing directory at that path is
    not an error.  Section 7: a create failure is a [FilesystemError] with the
    offending path attached. *)
Definition make_sure_path_exists (p : string) : M unit :=
  fun w =>
    match mkdirs (resolve w p) (tree w) with
    | Some t => (Ok tt, set_tree t w)
    | None => (Raise (FilesystemError (resolve w p)), w)
    end.

(** Modelled from the spec: [utils.work_in], which is not among the sources.
    Section 5: the working directory is changed for the scope and restored
    unconditionally on exit from it, normal return or error. *)
Definition work_in {A} (dirname : string) (body : M A) : M A :=
  fun w =>
    let target := resolve w dirname in
    if is_dir (lookup_node target (tree w)) then
      let (r, w') := body (set_cwd target w) in (r, set_cwd (cwd w) w')
    else (Raise (OSError ENOENT), w).

(** Modelled from the spec: [utils.unicode_open], which is not among the
    sources.  Section 4.4, step 4: the rendered text is written to the output
    path. *)
Definition unicode_write (outfile : string) (text : string) : M unit :=
  write_file outfile text.

(** ** The generator *)

(** What the generator calls and this file does not define:
    - [is_binary_string]: [binaryornot]'s verdict on the first 1024 bytes of
      a file;
    - [utf8_ok]: whether a byte string decodes as UTF-8;
    - [find_template]: [find.find_template(repo_dir)], which is not among
      the sources: the template root it locates, or the exception it raises
      (it only reads the world);
    - [exec_script]: running a hook script (its bytes) in a working
      directory with the project directory at hand: the file system it
      leaves and its exit status. *)
Class Services := {
  is_binary_string : string -> bool;
  utf8_ok : string -> bool;
  find_template : World -> string -> outcome string;
  exec_script : string -> list string -> string -> node -> node * Z
}.

Section Generator.

Context {services : Services}.

(** [binaryornot.check.is_binary(filename)]. *)
Definition is_binary (filename : string) (w : World) : outcome bool :=
  omap (fun data => is_binary_string (substring 0 1024 data))
       (read_file w filename).

(** The file [FileSystemLoader] opens for a template name. *)
Definition template_pieces (name : string) : list string :=
  List.filter (fun c => negb (String.eqb c "" || String.eqb c "."))
              (split_on "/" name).

Definition template_file (env : jinja.Environment) (name : string) : string :=
  fold_left path.join (template_pieces name) (jinja.searchpath env).

(** [env.get_template(name)]: load, decode and compile. *)
Definition get_template (env : jinja.Environment) (name : string) (w : World)
  : outcome jinja.Template :=
  if bool_decide (".." ∈ template_pieces name) then Raise TemplateNotFound
  else
    match stat w (template_file env name) with
    | Some (File data mode) =>
        if negb (readable mode) then Raise (IOError EACCES)
        else if negb (utf8_ok data) then Raise UnicodeDecodeError
        else jinja.compile (jinja.keep_trailing_newline env)
                           (jinja.strict_undefined env) data
    | _ => Raise TemplateNotFound
    end.

(** [Template(s).render(context)]. *)
Definition render_string (s : string) (context : dict) : outcome string :=
  obind (jinja.from_string s) (fun t => jinja.render t context).

(** Lines 125-142: the text branch of [generate_file].  On POSIX the
    separator is already a forward slash, so [infile_fwd_slashes] is
    [infile]; the [except TemplateSyntaxError] clause re-raises the exception
    it caught. *)
Definition render_file (infile outfile : string) (context : dict)
  (env : jinja.Environment) : M unit :=
  (do tmpl <- lift (get_template env infile);
   do rendered_file <- lift (fun _ => jinja.render tmpl context);
   unicode_write outfile rendered_file)%M.

Definition generate_file (project_dir infile : string) (context : dict)
  (env : jinja.Environment) : M unit :=
  (do rendered <- lift (fun _ => render_string infile context);
   let outfile := path.join project_dir rendered in
   do binary <- lift (is_binary infile);
   run (if binary : bool then copyfile infile outfile
        else render_file infile outfile context env);
   copymode infile outfile)%M.

Definition render_and_create_dir (dirname : string) (context : dict)
  (output_dir : string) : M string :=
  (do rendered_dirname <- lift (fun _ => render_string dirname context);
   let dir_to_create :=
     path.normpath (path.join output_dir rendered_dirname) in
   run make_sure_path_exists dir_to_create;
   ret dir_to_create)%M.

Definition is_templated (dirname : string) : bool :=
  contains "{{" dirname && contains "}}" dirname.

Definition ensure_dir_is_templated (dirname : string) : outcome bool :=
  if is_templated dirname then Ok true
  else Raise NonTemplatedInputDirException.

(** Modelled from the spec: [hooks.run_hook], which is not among the
    sources.  Section 4.6: it looks for a script named [hook_name] inside
    the current working directory; if absent, it is a no-op success; if
    present, it is executed with the project directory available to it, and
    a nonzero exit is a fatal error carrying the hook's name and exit
    status. *)
Definition run_hook (hook_name project_dir : string) : M unit :=
  fun w =>
    match stat w hook_name with
    | Some (File script _) =>
        let (t, status) := exec_script script (cwd w) project_dir (tree w) in
        if status =? 0 then (Ok tt, set_tree t w)
        else (Raise (HookExecutionError hook_name status), set_tree t w)
    | _ => (Ok tt, w)
    end.

(** Lines 212-222: [os.walk(top)] together with the loop body.  Each
    directory is listed when the walk reaches it; a directory that cannot
    be listed yields nothing.  [fuel] bounds the depth of the walk. *)
Fixpoint walk (fuel : nat) (project_dir : string) (context : dict)
  (output_dir : string) (env : jinja.Environment) (root : string) : M unit :=
  match fuel with
  | O => beyond OutOfFuel
  | S fuel' => fun w =>
      match listdir w root with
      | None => (Ok tt, w)
      | Some names =>
          let dirs :=
            List.filter (fun name => isdir w (path.join root name)) names in
          let files :=
            List.filter (fun name => negb (isdir w (path.join root name)))
                        names in
          (run for_each (fun d =>
                 let unrendered_dir :=
                   path.join project_dir (path.join root d) in
                 do _ <- render_and_create_dir unrendered_dir context
                                               output_dir;
                 ret tt) dirs;
           run for_each (fun f =>
                 let infile := path.join root f in
                 generate_file project_dir infile context env) files;
           for_each (fun d =>
                 walk fuel' project_dir context output_dir env
                      (path.join root d)) dirs)%M w
      end
  end.

(** [generate_files(repo_dir, context, output_dir)].  The function has no
    [return] statement: a call that completes evaluates to [None]. *)
Definition generate_files (fuel : nat) (repo_dir : string)
  (context : option dict) (output_dir : string) : M value :=
  (do template_dir <- lift (fun w => find_template w repo_dir);
   let context := default [] context in
   let unrendered_dir := snd (path.split template_dir) in
   do _ <- lift (fun _ => ensure_dir_is_templated unrendered_dir);
   do project_dir <- render_and_create_dir unrendered_dir context output_dir;
   do project_dir <- lift (fun w => Ok (path.abspath (getcwd w) project_dir));
   run work_in repo_dir (run_hook "pre_gen_project" project_dir);
   run work_in template_dir
         (let env := jinja.default_environment "." in
          walk fuel project_dir context output_dir env ".");
   run work_in repo_dir (run_hook "post_gen_project" project_dir);
   ret VNone)%M.

End Generator.

(** A result the program itself produced, as opposed to the walk running out
    of fuel. *)
Definition decided {A} (r : outcome A) : Prop := r <> Beyond OutOfFuel.


(** A computation that leaves the working directory where it was, whatever
    its outcome. *)
Definition keeps_cwd {A} (m : M A) : Prop :=
  forall w r w', m w = (r, w') -> cwd w' = cwd w.

(** ** Sample collaborators and a sample repository, for the examples *)

(** A detector that calls a chunk binary when it holds a NUL byte. *)
Definition nul_is_binary (chunk : string) : bool :=
  existsb (fun a => Ascii.eqb a zero) (list_ascii_of_string chunk).

(** A codec check that accepts the ASCII subset of UTF-8. *)
Definition ascii_utf8_ok (data : string) : bool :=
  forallb (fun a => (nat_of_ascii a <? 128)%nat) (list_ascii_of_string data).

(** A locator that takes the first subdirectory of the repository. *)
Definition first_subdir (w : World) (repo_dir : string) : outcome string :=
  match stat w repo_dir with
  | Some (Dir es) =>
      match list_find (fun e => is_dir (Some (snd e)) = true) es with
      | Some (_, (name, _)) => Ok (path.join repo_dir name)
      | None => Raise NonTemplatedInputDirException
      end
  | _ => Raise (OSError ENOENT)
  end.

(** A hook runner for scripts that only exit: status 1 for [exit 1], status 0
    otherwise; the file system is left alone. *)
Definition exit_script (script : string) (_ : list string) (_ : string)
  (t : node) : node * Z :=
  (t, if String.eqb script "exit 1" then 1 else 0).

Definition nl : string := String lf EmptyString.

Definition logo_bytes : string := String zero "PNG{{project_name}}".

Definition demo_template : node :=
  Dir [("README.md", File ("# {{project_name}}" ++ nl) 420);
       ("logo.png", File logo_bytes 384);
       ("docs", Dir [("index.txt", File ("hello" ++ nl) 436)])].

Definition demo_tree (pre_hook : string) (template_name : string) : node :=
  Dir [("repo", Dir [("pre_gen_project", File pre_hook 493);
                     (template_name, demo_template)]);
       ("out", Dir [])].

Definition demo_world (pre_hook template_name : string) : World :=
  {| tree := demo_tree pre_hook template_name; cwd := ["out"]; umask := 18 |}.

Definition demo_context : dict := [("project_name", VStr "demo")].

(** A working directory with a context file of an unsupported extension,
    two YAML context files, two files their parsers reject and an unreadable
    JSON file. *)
Definition context_world : World :=
  {| tree := Dir [("work",
        Dir [("ctx.txt", File "{{{ not a document" 420);
             ("cookiecutter.yml", File "project_name: demo" 420);
             ("nested.yml",
              File "author: {name: Ann, email: ann@example.org}" 420);
             ("broken.json", File "project_name: demo" 420);
             ("broken.yml", File "{ unclosed" 420);
             ("secret.json", File "{}" 0)])];
     cwd := ["work"]; umask := 18 |}.

Definition bare_world : World :=
  {| tree := Dir [("work", Dir [])]; cwd := ["work"]; umask := 18 |}.

Definition demo_services : Services :=
  {| is_binary_string := nul_is_binary; utf8_ok := ascii_utf8_ok;
     find_template := first_subdir; exec_script := exit_script |}.

(** The sample world once the project root [/out/demo] has been created. *)
Definition rooted_world (pre_hook : string) : World :=
  {| tree :=
       Dir [("repo", Dir [("pre_gen_project", File pre_hook 493);
                          ("{{project_name}}", demo_template)]);
            ("out", Dir [("demo", Dir [])])];
     cwd := ["out"]; umask := 18 |}.

(** The sample world after a complete run. *)
Definition generated_world : World :=
  {| tree :=
       Dir [("repo", Dir [("pre_gen_project", File "exit 0" 493);
                          ("{{project_name}}", demo_template)]);
            ("out", Dir [("demo",
               Dir [("docs", Dir [("index.txt", File "hello" 436)]);
                    ("README.md", File "# demo" 420);
                    ("logo.png", File logo_bytes 384)])])];
     cwd := ["out"]; umask := 18 |}.

(** A template root as the working directory, and an output directory. *)
Definition file_world : World :=
  {| tree :=
       Dir [("tpl", Dir [("index.txt", File ("hello" ++ nl) 436);
                         ("logo.png", File logo_bytes 384);
                         ("{{name}}.txt", File "hi {{name}}" 420);
                         ("bad.txt", File "oops {{ name" 420)]);
            ("out", Dir [])];
     cwd := ["tpl"]; umask := 18 |}.

Definition file_world_with (name data : string) (mode : Z) : World :=
  {| tree :=
       Dir [("tpl", Dir [("index.txt", File ("hello" ++ nl) 436);
                         ("logo.png", File logo_bytes 384);
                         ("{{name}}.txt", File "hi {{name}}" 420);
                         ("bad.txt", File "oops {{ name" 420)]);
            ("out", Dir [(name, File data mode)])];
     cwd := ["tpl"]; umask := 18 |}.

(** A working directory that holds both default context files and a JSON
    document whose top level is a list. *)
Definition defaults_world : World :=
  {| tree := Dir [("work",
        Dir [("cookiecutter.json", File "{}" 420);
             ("cookiecutter.yml", File "project_name: demo" 420);
             ("list.json", File "[]" 420)])];
     cwd := ["work"]; umask := 18 |}.

(** ** Facts about dictionaries *)

Lemma dict_get_set_eq k v d : dict_get k (dict_set k v d) = Some v.
Proof.
  induction d as [|[k' v'] d IH]; simpl.
  - by rewrite String.eqb_refl.
  - destruct (String.eqb k k') eqn:E; simpl.
    + by rewrite String.eqb_refl.
    + by rewrite E.
Qed.

Lemma dict_get_set_ne k k' v d :
  k ≠ k' -> dict_get k (dict_set k' v d) = dict_get k d.
Proof.
  intros Hne. induction d as [|[k2 v2] d IH]; simpl.
  - destruct (String.eqb k k') eqn:E; [|done].
    apply String.eqb_eq in E. done.
  - destruct (String.eqb k' k2) eqn:E; simpl.
    + apply String.eqb_eq in E. subst k2.
      destruct (String.eqb k k') eqn:E'; [|done].
      apply String.eqb_eq in E'. done.
    + by rewrite IH.
Qed.

Lemma dict_update_absent k d o :
  k ∉ o.*1 -> dict_get k (dict_update d o) = dict_get k d.
Proof.
  revert d. induction o as [|[k' v'] o IH]; intros d Hk; [done|].
  simpl in *. apply not_elem_of_cons in Hk as [Hne Hk].
  unfold dict_update in *. simpl. rewrite IH; [|done].
  by apply dict_get_set_ne.
Qed.

Lemma dict_update_present k v d o :
  NoDup o.*1 -> (k, v) ∈ o -> dict_get k (dict_update d o) = Some v.
Proof.
  revert d. induction o as [|[k' v'] o IH]; intros d Hnd Hin.
  - by apply elem_of_nil in Hin.
  - simpl in Hnd. apply NoDup_cons in Hnd as [Hfresh Hnd].
    apply elem_of_cons in Hin as [Heq|Hin].
    + inversion Heq; subst k' v'. unfold dict_update. simpl.
      fold (dict_update (dict_set k v d) o).
      rewrite dict_update_absent; [|done]. apply dict_get_set_eq.
    + unfold dict_update. simpl. fold (dict_update (dict_set k' v' d) o).
      by apply IH.
Qed.

(** Updating with the items of a finite map: the map's keys take the map's
    values, every other key keeps its own. *)
Lemma dict_update_map k d (o : gmap string value) :
  dict_get k (dict_update d (map_to_list o)) =
  match o !! k with Some v => Some v | None => dict_get k d end.
Proof.
  destruct (o !! k) as [v|] eqn:E.
  - apply dict_update_present.
    + apply NoDup_fst_map_to_list.
    + by apply elem_of_map_to_list.
  - apply dict_update_absent. intros Hin.
    apply list_elem_of_fmap in Hin as [[k' v'] [-> Hin]].
    apply elem_of_map_to_list in Hin. simpl in E. congruence.
Qed.

(** ** The context resolver *)

Section ContextResolverFacts.

Context {parsers : Parsers}.

Lemma truthy_lookup (o : gmap string value) k v :
  o !! k = Some v -> truthy (Some o) = true.
Proof.
  intros Hk. unfold truthy. case_bool_decide as E; [|done].
  subst o. by rewrite lookup_empty in Hk.
Qed.

(** C6. Overlay precedence: when the loaded context is a mapping [C] and
    the overlay [O] holds [k], the resolved context holds [O]'s value at
    [k], whatever [C] held there; the value is taken whole, never merged
    with [C]'s.  Keys outside [O] keep [C]'s value. *)
Theorem overlay_precedence context_file (O : gmap string value) w C k v :
  load_context context_file w = Ok (VDict C) ->
  O !! k = Some v ->
  exists d,
    generate_context context_file (Some O) w = Ok (VDict d)
    /\ dict_get k d = Some v
    /\ forall k', O !! k' = None -> dict_get k' d = dict_get k' C.
Proof.
  intros Hload Hk.
  exists (dict_update C (map_to_list O)).
  unfold generate_context. rewrite Hload. simpl.
  unfold apply_defaults. rewrite (truthy_lookup O k v Hk). simpl.
  split; [done|]. split.
  - by rewrite dict_update_map, Hk.
  - intros k' Hk'. by rewrite dict_update_map, Hk'.
Qed.

(** C9. A context file that opens but whose extension is neither [.json]
    nor [.yml] is never parsed: the call succeeds whatever the parsers
    would say, and the context holds exactly the overlay's pairs (none
    when there is no overlay). *)
Theorem other_extension_ignored context_file
  (default_context : option (gmap string value)) w data :
  let source := context_source context_file w in
  read_file w source = Ok data ->
  file_ext_of source <> ".json" ->
  file_ext_of source <> ".yml" ->
  exists d,
    generate_context context_file default_context w = Ok (VDict d)
    /\ (forall k, dict_get k d = default ∅ default_context !! k)
    /\ (default_context = None -> d = []).
Proof.
  intros source Hread Hjson Hyml.
  unfold generate_context, load_context.
  fold source. rewrite Hread. simpl.
  apply String.eqb_neq in Hjson, Hyml. rewrite Hjson, Hyml. simpl.
  unfold apply_defaults.
  destruct (truthy default_context) eqn:Ht.
  - exists (dict_update [] (map_to_list (default ∅ default_context))).
    split; [done|]. split.
    + intros k. rewrite dict_update_map. simpl.
      by destruct (default ∅ default_context !! k).
    + intros ->. done.
  - exists []. split; [done|]. split; [|done].
    intros k. simpl. destruct default_context as [o|]; simpl in *.
    + case_bool_decide as E; [|done]. subst o. by rewrite lookup_empty.
    + by rewrite lookup_empty.
Qed.

(** C10. The YAML fallback also applies to a file the caller named: when
    that file does not exist and [cookiecutter.yml] is a readable file of
    the working directory, the context is the YAML loader's reading of
    [cookiecutter.yml], with the overlay applied. *)
Theorem yaml_fallback_for_named_file context_file default_context w data :
  exists_ w context_file = false ->
  read_file w "cookiecutter.yml" = Ok data ->
  context_source (Some context_file) w = "cookiecutter.yml"
  /\ generate_context (Some context_file) default_context w =
     obind (yaml_load data) (apply_defaults default_context).
Proof.
  intros Hmissing Hread.
  assert (Hyml : exists_ w "cookiecutter.yml" = true).
  { unfold exists_. apply bool_decide_eq_true. unfold read_file in Hread.
    destruct (stat w "cookiecutter.yml"); [by eexists|done]. }
  assert (Hsrc : context_source (Some context_file) w = "cookiecutter.yml").
  { unfold context_source. simpl. by rewrite Hmissing, Hyml. }
  split; [done|].
  unfold generate_context, load_context.
  rewrite Hsrc, Hread. reflexivity.
Qed.

(** C3, as the code has it.  There is no [ContextLoadError] and no second
    attempt in the other format: a missing source fails with the [IOError]
    of [open] ([ENOENT]), an unreadable one with [EACCES]; a [.json] source
    fails with whatever the JSON parser raises and a [.yml] source with
    whatever the YAML parser raises.  No context is returned in any of
    these cases. *)
Theorem context_load_failures context_file default_context w :
  let source := context_source context_file w in
  (stat w source = None ->
   generate_context context_file default_context w = Raise (IOError ENOENT))
  /\ (forall data mode,
        stat w source = Some (File data mode) -> readable mode = false ->
        generate_context context_file default_context w
        = Raise (IOError EACCES))
  /\ (forall data e,
        read_file w source = Ok data -> file_ext_of source = ".json" ->
        json_load data = Raise e ->
        generate_context context_file default_context w = Raise e)
  /\ (forall data e,
        read_file w source = Ok data -> file_ext_of source = ".yml" ->
        yaml_load data = Raise e ->
        generate_context context_file default_context w = Raise e).
Proof.
  intros source.
  unfold generate_context, load_context. fold source.
  repeat split.
  - intros Hstat. unfold read_file. by rewrite Hstat.
  - intros data mode Hstat Hmode. unfold read_file. by rewrite Hstat, Hmode.
  - intros data e Hread Hext Hparse. rewrite Hread, Hext. simpl.
    by rewrite Hparse.
  - intros data e Hread Hext Hparse. rewrite Hread, Hext. simpl.
    by rewrite Hparse.
Qed.

End ContextResolverFacts.

#[local] Existing Instance sample_parsers.

(** The overlay's [author] replaces the loaded one whole: the loaded
    [email] is not merged into it. *)
Lemma overlay_precedence_witness :
  exists d,
    generate_context (Some "nested.yml")
      (Some {[ "author" := VDict [("name", VStr "Bob")] ]}) context_world
    = Ok (VDict d)
    /\ dict_get "author" d = Some (VDict [("name", VStr "Bob")])
    /\ forall k',
         ({[ "author" := VDict [("name", VStr "Bob")] ]} : gmap string value)
           !! k' = None ->
         dict_get k' d
         = dict_get k' [("author", VDict [("name", VStr "Ann");
                                          ("email", VStr "ann@example.org")])].
Proof.
  apply (overlay_precedence (Some "nested.yml")
           {[ "author" := VDict [("name", VStr "Bob")] ]} context_world
           [("author", VDict [("name", VStr "Ann");
                              ("email", VStr "ann@example.org")])]
           "author" (VDict [("name", VStr "Bob")])).
  - vm_compute. reflexivity.
  - apply lookup_singleton_eq.
Defined.

Lemma other_extension_ignored_witness :
  exists d,
    generate_context (Some "ctx.txt")
      (Some {[ "project_name" := VStr "mine" ]}) context_world = Ok (VDict d)
    /\ (forall k, dict_get k d
                  = default (∅ : gmap string value)
                      (Some {[ "project_name" := VStr "mine" ]}) !! k)
    /\ (Some ({[ "project_name" := VStr "mine" ]} : gmap string value) = None
        -> d = []).
Proof.
  apply (other_extension_ignored (Some "ctx.txt")
           (Some {[ "project_name" := VStr "mine" ]}) context_world
           "{{{ not a document").
  - vm_compute. reflexivity.
  - vm_compute. discriminate.
  - vm_compute. discriminate.
Defined.

Lemma yaml_fallback_for_named_file_witness :
  context_source (Some "missing.json") context_world = "cookiecutter.yml"
  /\ generate_context (Some "missing.json") None
       context_world
     = obind (yaml_load "project_name: demo") (apply_defaults None).
Proof.
  apply (yaml_fallback_for_named_file "missing.json"
           None context_world "project_name: demo").
  - vm_compute. reflexivity.
  - vm_compute. reflexivity.
Defined.

(** C3 fails as stated: [ctx.txt] parses under neither format, yet the call
    succeeds and returns the empty context. *)
Lemma unparseable_source_accepted :
  read_file context_world "ctx.txt" = Ok "{{{ not a document"
  /\ json_load "{{{ not a document" = Raise ValueError
  /\ yaml_load "{{{ not a document" = Raise YAMLError
  /\ generate_context (Some "ctx.txt") None
       context_world = Ok (VDict []).
Proof. vm_compute. repeat split. Qed.

Lemma context_load_failures_witness :
  generate_context (Some "nowhere.json") None bare_world
    = Raise (IOError ENOENT)
  /\ generate_context (Some "secret.json") None
       context_world = Raise (IOError EACCES)
  /\ generate_context (Some "broken.json") None
       context_world = Raise ValueError
  /\ generate_context (Some "broken.yml") None
       context_world = Raise YAMLError.
Proof.
  split; [|split; [|split]].
  - destruct (context_load_failures
                (Some "nowhere.json") None bare_world) as (H & _).
    apply H. vm_compute. reflexivity.
  - destruct (context_load_failures
                (Some "secret.json") None context_world) as (_ & H & _).
    apply (H "{}" 0); vm_compute; reflexivity.
  - destruct (context_load_failures
                (Some "broken.json") None context_world) as (_ & _ & H & _).
    apply (H "project_name: demo" ValueError); vm_compute; reflexivity.
  - destruct (context_load_failures
                (Some "broken.yml") None context_world) as (_ & _ & _ & H).
    apply (H "{ unclosed" YAMLError); vm_compute; reflexivity.
Defined.

(** ** The file system *)

Lemma entry_get_set_eq c x es : entry_get c (entry_set c x es) = Some x.
Proof.
  induction es as [|[n y] es IH]; simpl.
  - by rewrite String.eqb_refl.
  - destruct (String.eqb c n) eqn:E; simpl; by rewrite E.
Qed.

Lemma entry_get_set_ne c c' x es :
  c <> c' -> entry_get c (entry_set c' x es) = entry_get c es.
Proof.
  intros Hne. induction es as [|[n y] es IH]; simpl.
  - apply String.eqb_neq in Hne. by rewrite Hne.
  - destruct (String.eqb c' n) eqn:E; simpl; [|by rewrite IH].
    apply String.eqb_eq in E. subst n.
    apply String.eqb_neq in Hne. by rewrite Hne.
Qed.

(** [mkdirs] leaves a directory at the path it was asked for. *)
Lemma mkdirs_is_dir p : forall t t',
  mkdirs p t = Some t' -> is_dir (lookup_node p t') = true.
Proof.
  induction p as [|c p IH]; intros t t' H.
  - destruct t; simpl in H; [done|]. by inversion H.
  - destruct t as [|es]; simpl in H; [done|].
    destruct (mkdirs p (default (Dir []) (entry_get c es))) as [x|] eqn:E;
      [|done].
    inversion H; subst t'. simpl. rewrite entry_get_set_eq. by eapply IH.
Qed.

(** A directory [mkdirs] had to create is empty. *)
Lemma mkdirs_fresh p : forall t t',
  lookup_node p t = None -> mkdirs p t = Some t' ->
  lookup_node p t' = Some (Dir []).
Proof.
  induction p as [|c p IH]; intros t t' Hnone H; [done|].
  destruct t as [|es]; simpl in H; [done|].
  destruct (mkdirs p (default (Dir []) (entry_get c es))) as [x|] eqn:E;
    [|done].
  inversion H; subst t'. simpl. rewrite entry_get_set_eq.
  simpl in Hnone. destruct (entry_get c es) as [y|] eqn:Ey; simpl in E.
  - by eapply IH.
  - clear IH Hnone H. revert x E. induction p as [|c' p IH']; intros x E.
    + by inversion E.
    + simpl in E.
      destruct (mkdirs p (Dir [])) as [x'|] eqn:E'; [|done].
      inversion E; subst x. simpl. rewrite String.eqb_refl. by apply IH'.
Qed.

(** What a successful [alter_node] leaves at the path it rewrote. *)
Lemma alter_node_same f p : forall t t',
  alter_node f p t = inr t' ->
  exists x, f (lookup_node p t) = inr x /\ lookup_node p t' = Some x.
Proof.
  induction p as [|c p IH]; intros t t' H; simpl in H.
  - exists t'. by split.
  - destruct t as [|es]; [done|]. simpl.
    destruct (entry_get c es) as [y|] eqn:Ey.
    + destruct (alter_node f p y) as [e|y'] eqn:Ea; [done|].
      inversion H; subst t'. rewrite entry_get_set_eq.
      by apply IH.
    + destruct p as [|c' p]; [|done].
      destruct (f None) as [e|x] eqn:Ef; [done|].
      inversion H; subst t'. exists x. rewrite entry_get_set_eq. by split.
Qed.

(** Rewriting one path leaves the files at every other path alone. *)
Lemma alter_node_frame f : dir_stable f -> forall p q t t' data mode,
  alter_node f p t = inr t' -> q <> p ->
  lookup_node q t = Some (File data mode) ->
  lookup_node q t' = Some (File data mode).
Proof.
  intros Hf. induction p as [|c p IH]; intros q t t' data mode H Hne Hq.
  - simpl in H. destruct q as [|c2 q]; [done|].
    destruct t as [|es]; [done|]. by rewrite (Hf es t' H).
  - simpl in H. destruct t as [|es]; [done|].
    destruct q as [|c2 q]; [done|]. simpl in Hq |- *.
    destruct (entry_get c2 es) as [z|] eqn:Ez; [|done].
    destruct (entry_get c es) as [y|] eqn:Ey.
    + destruct (alter_node f p y) as [e|y'] eqn:Ea; [done|].
      inversion H; subst t'. simpl.
      destruct (decide (c2 = c)) as [->|Hc].
      * rewrite entry_get_set_eq. rewrite Ey in Ez. inversion Ez; subst z.
        eapply IH; [done| |done]. congruence.
      * by rewrite entry_get_set_ne, Ez.
    + destruct p as [|c' p]; [|done].
      destruct (f None) as [e|x] eqn:Ef; [done|].
      inversion H; subst t'. simpl.
      rewrite entry_get_set_ne, Ez; [done|]. congruence.
Qed.

Lemma written_dir_stable data mask : dir_stable (written data mask).
Proof. intros es x H. done. Qed.


Lemma resolve_set_tree t w p : resolve (set_tree t w) p = resolve w p.
Proof. reflexivity. Qed.

Lemma write_file_ok p data w w' :
  write_file p data w = (Ok tt, w') ->
  cwd w' = cwd w
  /\ (exists mode, stat w' p = Some (File data mode)
        /\ forall d m, stat w p = Some (File d m) -> mode = m)
  /\ (forall q d m, resolve w q <> resolve w p ->
        stat w q = Some (File d m) -> stat w' q = Some (File d m)).
Proof.
  unfold write_file, stat.
  destruct (alter_node _ _ _) as [e|t] eqn:E; [done|].
  intros H; inversion H; subst w'. simpl. split; [done|].
  rewrite !resolve_set_tree. split.
  - destruct (alter_node_same _ _ _ _ E) as (x & Hx & Hl).
    unfold written in Hx.
    destruct (lookup_node (resolve w p) (tree w)) as [[d m|es]|] eqn:El;
      [|done|].
    + destruct (writable m); [|done]. inversion Hx; subst x.
      exists m. split; [done|]. intros d' m' Heq. by inversion Heq.
    + inversion Hx; subst x. eexists. split; [done|]. done.
  - intros q d m Hne Hq. rewrite resolve_set_tree.
    eapply alter_node_frame; [apply written_dir_stable|done|done|done].
Qed.

Lemma chmod_ok p mode w w' data old :
  stat w p = Some (File data old) ->
  chmod p mode w = (Ok tt, w') ->
  stat w' p = Some (File data mode).
Proof.
  unfold chmod, stat. intros Hp.
  destruct (alter_node _ _ _) as [e|t] eqn:E; [done|].
  intros H; inversion H; subst w'. simpl. rewrite resolve_set_tree.
  destruct (alter_node_same _ _ _ _ E) as (x & Hx & Hl).
  rewrite Hp in Hx. simpl in Hx. by inversion Hx; subst x.
Qed.

(** Writing [data] to the output and then copying the input's mode onto it
    leaves [data] there under the input's permission bits, also when input
    and output are the same file. *)
Lemma write_then_copymode infile outfile data_in mode_in data w w1 w2 :
  stat w infile = Some (File data_in mode_in) ->
  write_file outfile data w = (Ok tt, w1) ->
  copymode infile outfile w1 = (Ok tt, w2) ->
  stat w2 outfile = Some (File data (S_IMODE mode_in)).
Proof.
  intros Hin Hw Hc.
  destruct (write_file_ok _ _ _ _ Hw) as (Hcwd & (m1 & Hout & Hkeep) & Hframe).
  assert (Hin1 : exists d, stat w1 infile = Some (File d mode_in)).
  { destruct (decide (resolve w infile = resolve w outfile)) as [Heq|Hne].
    - exists data. unfold stat in Hin, Hkeep.
      assert (Hr : resolve w1 infile = resolve w1 outfile).
      { unfold resolve in *. by rewrite Hcwd. }
      unfold stat in *. rewrite Hr, Hout. f_equal. f_equal.
      eapply Hkeep. rewrite <- Heq. done.
    - exists data_in. by apply Hframe. }
  destruct Hin1 as (d & Hin1).
  unfold copymode in Hc. rewrite Hin1 in Hc.
  by eapply chmod_ok.
Qed.

(** ** The render service *)

Module jinja_facts.
Import jinja.

#[local] Arguments Ascii.eqb : simpl never.

Lemma contains_cons needle a s :
  contains needle (String a s)
  = prefixb needle (String a s) || contains needle s.
Proof. reflexivity. Qed.

Lemma has_marker_cons a s :
  has_marker (String a s) = marker_here (String a s) || has_marker s.
Proof.
  unfold has_marker. rewrite !contains_cons.
  assert (Hm : marker_here (String a s) =
               prefixb "{{" (String a s) || prefixb "{%" (String a s)
               || prefixb "{#" (String a s)).
  { destruct s as [|b s]; simpl.
    - by rewrite !andb_false_r.
    - rewrite !andb_true_r.
      rewrite (Ascii.eqb_sym "{" a), (Ascii.eqb_sym "{" b),
        (Ascii.eqb_sym "%" b), (Ascii.eqb_sym "#" b).
      by destruct (Ascii.eqb a "{"). }
  rewrite Hm.
  destruct (prefixb "{{" (String a s)), (prefixb "{%" (String a s)),
    (prefixb "{#" (String a s)), (contains "{{" s), (contains "{%" s),
    (contains "{#" s); done.
Qed.

Lemma has_marker_cons_false a s :
  has_marker (String a s) = false ->
  marker_here (String a s) = false /\ has_marker s = false.
Proof. rewrite has_marker_cons. apply orb_false_elim. Qed.

Lemma lex_cons a s :
  lex (String a s) =
  if Ascii.eqb a "{" then
    match s with
    | String b s' =>
        if Ascii.eqb b "{" then lex_print [] s'
        else if Ascii.eqb b "%" || Ascii.eqb b "#"
             then Beyond OutsideFragment
             else omap (add_data a) (lex s)
    | EmptyString => Ok [Data (String a EmptyString)]
    end
  else omap (add_data a) (lex s).
Proof. reflexivity. Qed.

(** Text without markers is one piece of data. *)
Lemma lex_plain s :
  has_marker s = false ->
  lex s = Ok (match s with EmptyString => [] | _ => [Data s] end).
Proof.
  induction s as [|a s IH]; intros H; [done|].
  apply has_marker_cons_false in H as [Hhere Hrest].
  specialize (IH Hrest). rewrite lex_cons.
  destruct (Ascii.eqb a "{") eqn:Ea.
  - destruct s as [|b s]; [done|].
    unfold marker_here in Hhere. rewrite Ea in Hhere. simpl in Hhere.
    apply orb_false_elim in Hhere as [Hhere H3].
    apply orb_false_elim in Hhere as [H1 H2].
    rewrite H1, H2, H3. cbn [orb]. by rewrite IH.
  - rewrite IH. by destruct s.
Qed.

Lemma append_empty_r (s : string) : s ++ "" = s.
Proof. induction s as [|a s IH]; [done|]. by rewrite <- IH at 2. Qed.

Lemma render_plain strict context s :
  render_pieces strict context
    (match s with EmptyString => [] | _ => [Data s] end) = Ok s.
Proof.
  destruct s as [|a s]; [done|]. cbn. by rewrite append_empty_r.
Qed.

Lemma string_ind2 (P : string -> Prop) :
  P "" -> (forall a, P (String a "")) ->
  (forall a b s, P s -> P (String b s) -> P (String a (String b s))) ->
  forall s, P s.
Proof.
  intros H0 H1 H2 s.
  enough (P s /\ forall a, P (String a s)) by tauto.
  induction s as [|b s [IHs IHb]]; [by split|].
  split; [apply IHb|]. intros a. by apply H2.
Qed.

Lemma unify_newlines_head b r :
  exists rest,
    unify_newlines (String b r)
    = String (if Ascii.eqb b cr then lf else b) rest.
Proof.
  simpl. destruct (Ascii.eqb b cr); [|by eexists].
  destruct r as [|c r]; [by eexists|]. by destruct (Ascii.eqb c lf); eexists.
Qed.

Lemma marker_here_lf r : marker_here (String lf r) = false.
Proof. by destruct r. Qed.

(** Unifying the newlines creates no marker. *)
Lemma unify_newlines_plain s :
  has_marker s = false -> has_marker (unify_newlines s) = false.
Proof.
  induction s as [|a|a b s IHs IHb] using string_ind2; intros H.
  - done.
  - simpl. by destruct (Ascii.eqb a cr).
  - apply has_marker_cons_false in H as [Hhere Hb].
    specialize (IHb Hb).
    apply has_marker_cons_false in Hb as [_ Hs]. specialize (IHs Hs).
    change (unify_newlines (String a (String b s))) with
      (if Ascii.eqb a cr then
         if Ascii.eqb b lf then String lf (unify_newlines s)
         else String lf (unify_newlines (String b s))
       else String a (unify_newlines (String b s))).
    destruct (Ascii.eqb a cr) eqn:Ea.
    + destruct (Ascii.eqb b lf).
      * by rewrite has_marker_cons, marker_here_lf, IHs.
      * by rewrite has_marker_cons, marker_here_lf, IHb.
    + rewrite has_marker_cons, IHb, orb_false_r.
      destruct (unify_newlines_head b s) as (rest & ->).
      unfold marker_here in *.
      destruct (Ascii.eqb b cr) eqn:Eb; [|done].
      by rewrite andb_false_r.
Qed.

Lemma drop_final_newline_head b r :
  drop_final_newline (String b r) = ""
  \/ exists rest, drop_final_newline (String b r) = String b rest.
Proof.
  simpl. destruct r as [|c r]; [|right; by eexists].
  destruct (Ascii.eqb b lf); [by left|right; by eexists].
Qed.

(** Dropping the final newline creates no marker. *)
Lemma drop_final_newline_plain s :
  has_marker s = false -> has_marker (drop_final_newline s) = false.
Proof.
  induction s as [|a s IH]; intros H; [done|].
  apply has_marker_cons_false in H as [Hhere Hs]. specialize (IH Hs).
  destruct s as [|b s].
  - simpl. destruct (Ascii.eqb a lf); [done|]. by rewrite has_marker_cons.
  - change (drop_final_newline (String a (String b s))) with
      (String a (drop_final_newline (String b s))).
    rewrite has_marker_cons, IH, orb_false_r.
    destruct (drop_final_newline_head b s) as [->|(rest & ->)]; [done|].
    exact Hhere.
Qed.

Lemma preprocess_plain keep s :
  has_marker s = false -> has_marker (preprocess keep s) = false.
Proof.
  intros H. unfold preprocess. apply unify_newlines_plain in H.
  destruct keep; [done|]. by apply drop_final_newline_plain.
Qed.

(** A render that completes was given no [self] key. *)
Lemma render_ok_inv t context text :
  render t context = Ok text ->
  dict_get "self" context = None
  /\ render_pieces (strict t) context (pieces t) = Ok text.
Proof. unfold render. by destruct (dict_get "self" context). Qed.

Lemma render_no_self t context :
  dict_get "self" context = None ->
  render t context = render_pieces (strict t) context (pieces t).
Proof. unfold render. by intros ->. Qed.

(** Compiling and rendering text without markers gives the text back, up
    to the lexer's treatment of newlines. *)
Lemma compile_render_plain keep strict context s :
  has_marker s = false ->
  dict_get "self" context = None ->
  obind (compile keep strict s) (fun t => render t context)
  = Ok (preprocess keep s).
Proof.
  intros H Hself. unfold compile.
  rewrite (lex_plain _ (preprocess_plain keep s H)). simpl.
  rewrite render_no_self by done. apply render_plain.
Qed.





Lemma unify_newlines_fixed s :
  has_cr s = false -> unify_newlines s = s.
Proof.
  induction s as [|a s IH]; intros H; [done|].
  unfold has_cr in H. rewrite contains_cons in H.
  apply orb_false_elim in H as [Ha Hs]. simpl in Ha.
  rewrite andb_true_r, Ascii.eqb_sym in Ha.
  simpl. rewrite Ha. by rewrite IH.
Qed.

Lemma drop_final_newline_fixed s :
  last_char s <> Some lf -> drop_final_newline s = s.
Proof.
  induction s as [|a s IH]; intros H; [done|].
  destruct s as [|b s].
  - simpl. destruct (Ascii.eqb a lf) eqn:Ea; [|done].
    apply Ascii.eqb_eq in Ea. subst a. done.
  - change (drop_final_newline (String a (String b s))) with
      (String a (drop_final_newline (String b s))).
    by rewrite IH.
Qed.

(** Text without carriage returns and without a final newline passes the
    lexer's newline treatment unchanged. *)
Lemma preprocess_fixed keep s :
  has_cr s = false -> last_char s <> Some lf -> preprocess keep s = s.
Proof.
  intros Hcr Hlast. unfold preprocess. rewrite unify_newlines_fixed; [|done].
  destruct keep; [done|]. by apply drop_final_newline_fixed.
Qed.

End jinja_facts.

(** ** The generator *)

Lemma bind_ok {A B} (m : M A) (k : A -> M B) w b w' :
  bind m k w = (Ok b, w') ->
  exists a w1, m w = (Ok a, w1) /\ k a w1 = (Ok b, w').
Proof.
  unfold bind. destruct (m w) as [[a|e|l] w1]; [|done|done].
  intros H. by exists a, w1.
Qed.

Lemma lift_ok {A} (f : World -> outcome A) w a w' :
  lift f w = (Ok a, w') -> f w = Ok a /\ w' = w.
Proof. unfold lift. intros H. by inversion H. Qed.

Lemma obind_ok {A B} (o : outcome A) (k : A -> outcome B) b :
  obind o k = Ok b -> exists a, o = Ok a /\ k a = Ok b.
Proof. destruct o as [a|e|l]; [|done|done]. intros H. by exists a. Qed.

Ltac bind_inv H a w H1 := apply bind_ok in H as (a & w & H1 & H).

Lemma bind_ext {A B} (m m' : M A) (k k' : A -> M B) w :
  m w = m' w -> (forall a w1, k a w1 = k' a w1) -> bind m k w = bind m' k' w.
Proof.
  intros Hm Hk. unfold bind. rewrite Hm.
  destruct (m' w) as [[a|e|l] w1]; [apply Hk|done..].
Qed.


Lemma for_each_ext {A} (f g : A -> M unit) l w :
  (forall x w, f x w = g x w) -> for_each f l w = for_each g l w.
Proof.
  intros Hfg. revert w. induction l as [|x l IH]; intros w; [done|].
  simpl. unfold bind. rewrite Hfg.
  destruct (g x w) as [[u|e|k] w1]; [apply IH|done..].
Qed.


Lemma make_sure_path_exists_ok p w w' :
  make_sure_path_exists p w = (Ok tt, w') ->
  cwd w' = cwd w
  /\ isdir w' p = true
  /\ (stat w p = None -> stat w' p = Some (Dir [])).
Proof.
  unfold make_sure_path_exists, isdir, stat.
  destruct (mkdirs (resolve w p) (tree w)) as [t|] eqn:E; [|done].
  intros H; inversion H; subst w'. rewrite !resolve_set_tree. simpl.
  split; [done|]. split.
  - by eapply mkdirs_is_dir.
  - intros Hnone. by eapply mkdirs_fresh.
Qed.

Section GeneratorFacts.

Context {services : Services}.

Lemma render_and_create_dir_ok dirname context output_dir w dir w' :
  render_and_create_dir dirname context output_dir w = (Ok dir, w') ->
  exists rendered,
    render_string dirname context = Ok rendered
    /\ dir = path.normpath (path.join output_dir rendered)
    /\ cwd w' = cwd w
    /\ isdir w' dir = true
    /\ (stat w dir = None -> stat w' dir = Some (Dir [])).
Proof.
  unfold render_and_create_dir. intros H.
  bind_inv H rendered w0 Hr. apply lift_ok in Hr as [Hr ->].
  bind_inv H u w1 Hmk. inversion H; subst dir w'. destruct u.
  apply make_sure_path_exists_ok in Hmk as (Hcwd & Hdir & Hfresh).
  by exists rendered.
Qed.

(** C7. When the directory the locator returns has a name without [{{] or
    without [}}], [generate_files] raises [NonTemplatedInputDirException] and
    the world is exactly as it was: nothing has been created. *)
Theorem untemplated_root_rejected fuel repo_dir context output_dir w
  template_dir :
  find_template w repo_dir = Ok template_dir ->
  contains "{{" (snd (path.split template_dir)) = false
  \/ contains "}}" (snd (path.split template_dir)) = false ->
  generate_files fuel repo_dir context output_dir w
  = (Raise NonTemplatedInputDirException, w).
Proof.
  intros Hfind Hname.
  unfold generate_files, bind, lift. rewrite Hfind.
  unfold ensure_dir_is_templated, is_templated.
  destruct Hname as [-> | ->]; [done|]. by rewrite andb_false_r.
Qed.

(** C8. When the pre-generation hook exits nonzero, [generate_files] raises
    the hook's error at once.  The world it leaves is the one the hook left,
    and the hook ran in the world where the generator had done one thing
    only: render and create the project root.  The root is a directory by
    then, an empty one when it did not exist before, and it is still empty
    at the end when the hook itself wrote nothing. *)
Theorem pre_hook_failure_leaves_empty_root fuel repo_dir context output_dir w
  template_dir project_dir w1 script mode t status :
  find_template w repo_dir = Ok template_dir ->
  is_templated (snd (path.split template_dir)) = true ->
  render_and_create_dir (snd (path.split template_dir)) (default [] context)
    output_dir w = (Ok project_dir, w1) ->
  isdir w1 repo_dir = true ->
  stat (set_cwd (resolve w1 repo_dir) w1) "pre_gen_project"
  = Some (File script mode) ->
  exec_script script (resolve w1 repo_dir)
    (path.abspath (getcwd w1) project_dir) (tree w1) = (t, status) ->
  status <> 0 ->
  generate_files fuel repo_dir context output_dir w
  = (Raise (HookExecutionError "pre_gen_project" status), set_tree t w1)
  /\ isdir w1 project_dir = true
  /\ (stat w project_dir = None -> stat w1 project_dir = Some (Dir []))
  /\ (stat w project_dir = None -> t = tree w1 ->
      stat (set_tree t w1) project_dir = Some (Dir [])).
Proof.
  intros Hfind Htempl Hroot Hrepo Hhook Hexec Hstatus.
  destruct (render_and_create_dir_ok _ _ _ _ _ _ Hroot)
    as (rendered & Hr & Hdir & Hcwd & Hisdir & Hfresh).
  split; [|split; [done|split; [done|]]].
  - unfold generate_files, bind at 1, lift at 1. rewrite Hfind.
    unfold bind at 1, lift at 1, ensure_dir_is_templated. rewrite Htempl.
    unfold bind at 1. rewrite Hroot.
    unfold bind at 1, lift at 1. unfold bind at 1, work_in at 1.
    unfold isdir, stat in Hrepo. rewrite Hrepo.
    unfold run_hook at 1. rewrite Hhook. simpl cwd. simpl tree.
    rewrite Hexec. apply Z.eqb_neq in Hstatus. rewrite Hstatus.
    reflexivity.
  - intros Hnone ->. unfold stat. rewrite resolve_set_tree. simpl.
    by apply Hfresh.
Qed.

(** C1, as the code has it.  A call of [generate_files] that completes
    evaluates to [None]: the function has no [return] statement.  The
    project directory has been rendered from the template root's name and
    created under [output_dir]. *)
Theorem generate_files_returns_none fuel repo_dir context output_dir w v w' :
  generate_files fuel repo_dir context output_dir w = (Ok v, w') ->
  v = VNone
  /\ exists template_dir project_dir w1,
       find_template w repo_dir = Ok template_dir
       /\ render_and_create_dir (snd (path.split template_dir))
            (default [] context) output_dir w = (Ok project_dir, w1)
       /\ isdir w1 project_dir = true.
Proof.
  unfold generate_files. intros H.
  bind_inv H template_dir w0 Hfind. apply lift_ok in Hfind as [Hfind ->].
  bind_inv H b w0 Hen. apply lift_ok in Hen as [_ ->].
  bind_inv H project_dir w1 Hroot.
  bind_inv H abs_dir w2 Habs. apply lift_ok in Habs as [_ ->].
  bind_inv H u1 w3 Hpre. bind_inv H u2 w4 Hwalk. bind_inv H u3 w5 Hpost.
  inversion H; subst v. split; [done|].
  exists template_dir, project_dir, w1. split; [done|]. split; [done|].
  by destruct (render_and_create_dir_ok _ _ _ _ _ _ Hroot)
    as (rendered & _ & _ & _ & Hisdir & _).
Qed.

Lemma generate_file_ok project_dir infile context env w w' :
  generate_file project_dir infile context env w = (Ok tt, w') ->
  exists rendered binary w1,
    render_string infile context = Ok rendered
    /\ is_binary infile w = Ok binary
    /\ (if binary then copyfile infile (path.join project_dir rendered)
         else render_file infile (path.join project_dir rendered)
                context env) w = (Ok tt, w1)
    /\ copymode infile (path.join project_dir rendered) w1 = (Ok tt, w').
Proof.
  unfold generate_file. intros H.
  bind_inv H rendered w0 Hr. apply lift_ok in Hr as [Hr ->].
  bind_inv H binary w0 Hb. apply lift_ok in Hb as [Hb ->].
  bind_inv H u w1 Hbody. destruct u.
  by exists rendered, binary, w1.
Qed.

Lemma read_file_stat w p data mode d :
  stat w p = Some (File data mode) -> read_file w p = Ok d -> d = data.
Proof.
  unfold read_file. intros ->. destruct (readable mode); [|done].
  intros H. by inversion H.
Qed.

(** C5. When [generate_file] completes on an input that the detector calls
    binary, the output path (the project directory joined with the rendered
    input path) holds the input's bytes exactly as they were, markers and
    all, under the input's permission bits. *)
Theorem binary_file_copied project_dir infile context env w w' data mode :
  stat w infile = Some (File data mode) ->
  is_binary infile w = Ok true ->
  generate_file project_dir infile context env w = (Ok tt, w') ->
  exists rendered,
    render_string infile context = Ok rendered
    /\ stat w' (path.join project_dir rendered)
       = Some (File data (S_IMODE mode)).
Proof.
  intros Hin Hbin H.
  apply generate_file_ok in H as (rendered & binary & w1 & Hr & Hb & Hbody & Hc).
  rewrite Hbin in Hb. inversion Hb; subst binary.
  exists rendered. split; [done|].
  unfold copyfile in Hbody.
  destruct (bool_decide _ && exists_ w infile); [done|].
  bind_inv Hbody d w0 Hread. apply lift_ok in Hread as [Hread ->].
  rewrite (read_file_stat _ _ _ _ _ Hin Hread) in Hbody.
  by eapply write_then_copymode.
Qed.

(** C4, as the code has it.  When [generate_file] completes on a text input
    without template markers, the output holds the input's text as the
    template lexer hands it on: line ends unified to a line feed and, unless
    the environment keeps it, one final newline dropped.  The permission
    bits are the input's.  The loader must find the input file itself, as it
    does when the working directory is the template root. *)
Theorem plain_text_rendered project_dir infile context env w w' data mode :
  stat w infile = Some (File data mode) ->
  is_binary infile w = Ok false ->
  resolve w (template_file env infile) = resolve w infile ->
  jinja.has_marker data = false ->
  generate_file project_dir infile context env w = (Ok tt, w') ->
  exists rendered,
    render_string infile context = Ok rendered
    /\ stat w' (path.join project_dir rendered)
       = Some (File (jinja.preprocess (jinja.keep_trailing_newline env) data)
                    (S_IMODE mode))
    /\ (has_cr data = false -> last_char data <> Some lf ->
        stat w' (path.join project_dir rendered)
        = Some (File data (S_IMODE mode))).
Proof.
  intros Hin Hbin Hloader Hplain H.
  apply generate_file_ok in H as (rendered & binary & w1 & Hr & Hb & Hbody & Hc).
  rewrite Hbin in Hb. inversion Hb; subst binary.
  exists rendered. split; [done|].
  enough (Hout : stat w' (path.join project_dir rendered)
       = Some (File (jinja.preprocess (jinja.keep_trailing_newline env) data)
                    (S_IMODE mode))).
  { split; [done|]. intros Hcr Hlast.
    by rewrite Hout, jinja_facts.preprocess_fixed. }
  unfold render_file in Hbody.
  bind_inv Hbody tmpl w0 Hget. apply lift_ok in Hget as [Hget ->].
  bind_inv Hbody text w0 Hrender. apply lift_ok in Hrender as [Hrender ->].
  assert (Htext : text
                  = jinja.preprocess (jinja.keep_trailing_newline env) data).
  { unfold get_template in Hget.
    destruct (bool_decide _); [done|].
    unfold stat in Hget, Hin. rewrite Hloader, Hin in Hget.
    destruct (negb (readable mode)); [done|].
    destruct (negb (utf8_ok data)); [done|].
    destruct (jinja_facts.render_ok_inv _ _ _ Hrender) as [Hself _].
    pose proof (jinja_facts.compile_render_plain
                  (jinja.keep_trailing_newline env)
                  (jinja.strict_undefined env) context data Hplain Hself)
      as Hcr.
    rewrite Hget in Hcr. simpl in Hcr. rewrite Hrender in Hcr.
    by inversion Hcr. }
  subst text. unfold unicode_write in Hbody.
  by eapply write_then_copymode.
Qed.

Lemma walk_S project_dir context output_dir env n root w :
  walk (S n) project_dir context output_dir env root w =
  match listdir w root with
  | None => (Ok tt, w)
  | Some names =>
      bind (for_each (fun d =>
              bind (render_and_create_dir
                      (path.join project_dir (path.join root d)) context
                      output_dir) (fun _ => ret tt))
            (List.filter (fun name => isdir w (path.join root name)) names))
        (fun _ =>
           bind (for_each (fun f =>
                   generate_file project_dir (path.join root f) context env)
                 (List.filter
                    (fun name => negb (isdir w (path.join root name))) names))
             (fun _ =>
                for_each (fun d =>
                    walk n project_dir context output_dir env
                      (path.join root d))
                  (List.filter (fun name => isdir w (path.join root name))
                     names))) w
  end.
Proof. reflexivity. Qed.








End GeneratorFacts.

(** ** Fuel *)

Lemma bind_decided {A B} (m m' : M A) (k k' : A -> M B) w r w' :
  (forall r1 w1, m w = (r1, w1) -> decided r1 -> m' w = (r1, w1)) ->
  (forall a w1 r2 w2, k a w1 = (r2, w2) -> decided r2 -> k' a w1 = (r2, w2)) ->
  bind m k w = (r, w') -> decided r -> bind m' k' w = (r, w').
Proof.
  intros Hm Hk H Hr. unfold bind in *.
  destruct (m w) as [[a|e|l] w1] eqn:E.
  - rewrite (Hm _ _ eq_refl); [|done]. by apply Hk.
  - inversion H; subst r w'. rewrite (Hm _ _ eq_refl); [done|].
    unfold decided. discriminate.
  - inversion H; subst r w'. rewrite (Hm _ _ eq_refl); [done|].
    unfold decided in *. congruence.
Qed.

Lemma for_each_decided {A} (f g : A -> M unit) l :
  (forall x w r w', f x w = (r, w') -> decided r -> g x w = (r, w')) ->
  forall w r w',
    for_each f l w = (r, w') -> decided r -> for_each g l w = (r, w').
Proof.
  intros Hfg. induction l as [|x l IH]; intros w r w' H Hr; [done|].
  simpl in *. eapply bind_decided; [| |done|done].
  - intros r1 w1. apply Hfg.
  - intros u w1 r2 w2. apply IH.
Qed.

Section Fuel.

Context {services : Services}.


(** More fuel does not change what the walk decides. *)
Lemma walk_fuel_mono project_dir context output_dir env n : forall m root w r w',
  (n <= m)%nat ->
  walk n project_dir context output_dir env root w = (r, w') -> decided r ->
  walk m project_dir context output_dir env root w = (r, w').
Proof.
  induction n as [|n IH]; intros m root w r w' Hle H Hr.
  - simpl in H. inversion H; subst r. by destruct Hr.
  - destruct m as [|m]; [lia|]. rewrite walk_S in *.
    destruct (listdir w root) as [names|]; [|done].
    eapply bind_decided; [| |exact H|exact Hr]; [by intros|].
    intros u1 w1 r2 w2 H2 Hr2.
    eapply bind_decided; [| |exact H2|exact Hr2]; [by intros|].
    intros u3 w3 r4 w4. apply for_each_decided.
    intros d w5 r5 w6. apply IH. lia.
Qed.

(** More fuel does not change what [generate_files] decides. *)
Lemma generate_files_fuel_mono n m repo_dir context output_dir w r w' :
  (n <= m)%nat ->
  generate_files n repo_dir context output_dir w = (r, w') -> decided r ->
  generate_files m repo_dir context output_dir w = (r, w').
Proof.
  intros Hle H Hr. unfold generate_files in *.
  eapply bind_decided; [| |exact H|exact Hr]; [by intros|].
  intros template_dir w0 r0 w0' H0 Hr0.
  eapply bind_decided; [| |exact H0|exact Hr0]; [by intros|].
  intros b w1 r1 w1' H1 Hr1.
  eapply bind_decided; [| |exact H1|exact Hr1]; [by intros|].
  intros project_dir w2 r2 w2' H2 Hr2.
  eapply bind_decided; [| |exact H2|exact Hr2]; [by intros|].
  intros abs_dir w3 r3 w3' H3 Hr3.
  eapply bind_decided; [| |exact H3|exact Hr3]; [by intros|].
  intros u w4 r4 w4' H4 Hr4.
  eapply bind_decided; [| |exact H4|exact Hr4]; [|by intros].
  intros r5 w5. unfold work_in.
  destruct (is_dir _); [|done].
  destruct (walk n _ _ _ _ _ _) as [rn wn] eqn:En.
  intros H5 Hr5. inversion H5; subst r5 w5.
  by rewrite (walk_fuel_mono _ _ _ _ n m _ _ _ _ Hle En Hr5).
Qed.

End Fuel.

(** ** The theorems at work on the sample repository *)

#[local] Existing Instance demo_services.

Lemma untemplated_root_rejected_witness :
  generate_files 5 "/repo" (Some demo_context) "."
    (demo_world "exit 0" "plainname")
  = (Raise NonTemplatedInputDirException, demo_world "exit 0" "plainname").
Proof.
  apply (untemplated_root_rejected 5 "/repo" (Some demo_context) "."
           (demo_world "exit 0" "plainname") "/repo/plainname").
  - vm_compute. reflexivity.
  - left. vm_compute. reflexivity.
Defined.

Lemma pre_hook_failure_leaves_empty_root_witness :
  generate_files 5 "/repo" (Some demo_context) "."
    (demo_world "exit 1" "{{project_name}}")
  = (Raise (HookExecutionError "pre_gen_project" 1),
     set_tree (tree (rooted_world "exit 1")) (rooted_world "exit 1"))
  /\ isdir (rooted_world "exit 1") "demo" = true
  /\ (stat (demo_world "exit 1" "{{project_name}}") "demo" = None ->
      stat (rooted_world "exit 1") "demo" = Some (Dir []))
  /\ (stat (demo_world "exit 1" "{{project_name}}") "demo" = None ->
      tree (rooted_world "exit 1") = tree (rooted_world "exit 1") ->
      stat (set_tree (tree (rooted_world "exit 1")) (rooted_world "exit 1"))
        "demo" = Some (Dir [])).
Proof.
  apply (pre_hook_failure_leaves_empty_root 5 "/repo" (Some demo_context) "."
           (demo_world "exit 1" "{{project_name}}") "/repo/{{project_name}}"
           "demo" (rooted_world "exit 1") "exit 1" 493
           (tree (rooted_world "exit 1")) 1).
  - vm_compute. reflexivity.
  - vm_compute. reflexivity.
  - vm_compute. reflexivity.
  - vm_compute. reflexivity.
  - vm_compute. reflexivity.
  - vm_compute. reflexivity.
  - lia.
Defined.

Lemma generate_files_returns_none_witness :
  VNone = VNone
  /\ exists template_dir project_dir w1,
       find_template (demo_world "exit 0" "{{project_name}}") "/repo"
       = Ok template_dir
       /\ render_and_create_dir (snd (path.split template_dir))
            (default [] (Some demo_context)) "."
            (demo_world "exit 0" "{{project_name}}") = (Ok project_dir, w1)
       /\ isdir w1 project_dir = true.
Proof.
  apply (generate_files_returns_none 5 "/repo" (Some demo_context) "."
           (demo_world "exit 0" "{{project_name}}") VNone generated_world).
  vm_compute. reflexivity.
Defined.

(** C1 fails as stated: the run completes, the project directory
    [/out/demo] exists, and the value returned is [None], not its path. *)
Lemma generate_files_returns_no_path :
  generate_files 5 "/repo" (Some demo_context) "."
    (demo_world "exit 0" "{{project_name}}") = (Ok VNone, generated_world)
  /\ isdir generated_world "/out/demo" = true
  /\ VNone <> VStr "/out/demo".
Proof. split; [by vm_compute|]. split; [by vm_compute|]. discriminate. Qed.

Lemma binary_file_copied_witness :
  exists rendered,
    render_string "./logo.png" demo_context = Ok rendered
    /\ stat (file_world_with "logo.png" logo_bytes 384)
         (path.join "/out" rendered)
       = Some (File logo_bytes (S_IMODE 384)).
Proof.
  apply (binary_file_copied "/out" "./logo.png"
           demo_context (jinja.default_environment ".") file_world
           (file_world_with "logo.png" logo_bytes 384) logo_bytes 384).
  - vm_compute. reflexivity.
  - vm_compute. reflexivity.
  - vm_compute. reflexivity.
Defined.

Lemma plain_text_rendered_witness :
  exists rendered,
    render_string "./index.txt" demo_context = Ok rendered
    /\ stat (file_world_with "index.txt" "hello" 436)
         (path.join "/out" rendered)
       = Some (File (jinja.preprocess
                       (jinja.keep_trailing_newline
                          (jinja.default_environment "."))
                       ("hello" ++ nl))
                    (S_IMODE 436))
    /\ (has_cr ("hello" ++ nl) = false ->
        last_char ("hello" ++ nl) <> Some lf ->
        stat (file_world_with "index.txt" "hello" 436)
          (path.join "/out" rendered)
        = Some (File ("hello" ++ nl) (S_IMODE 436))).
Proof.
  apply (plain_text_rendered "/out" "./index.txt"
           demo_context (jinja.default_environment ".") file_world
           (file_world_with "index.txt" "hello" 436) ("hello" ++ nl) 436).
  - vm_compute. reflexivity.
  - vm_compute. reflexivity.
  - vm_compute. reflexivity.
  - vm_compute. reflexivity.
  - vm_compute. reflexivity.
Defined.

(** C4 fails as stated: [index.txt] is text without markers, and its output
    has lost the final newline. *)
Lemma trailing_newline_dropped :
  stat file_world "./index.txt" = Some (File ("hello" ++ nl) 436)
  /\ is_binary "./index.txt" file_world = Ok false
  /\ jinja.has_marker ("hello" ++ nl) = false
  /\ generate_file "/out" "./index.txt" demo_context
       (jinja.default_environment ".") file_world
     = (Ok tt, file_world_with "index.txt" "hello" 436)
  /\ stat (file_world_with "index.txt" "hello" 436) "/out/./index.txt"
     = Some (File "hello" 436)
  /\ "hello" <> "hello" ++ nl.
Proof. repeat split; try by vm_compute. Qed.




(** * Further properties of the module *)

#[local] Remove Hints sample_parsers demo_services : typeclass_instances.

(** ** [generate_context] *)

Lemma dict_set_keys k v d :
  (dict_set k v d).*1 = if bool_decide (k ∈ d.*1) then d.*1 else (d.*1 ++ [k])%list.
Proof.
  induction d as [|[k' v'] d IH]; [done|].
  cbn [dict_set]. destruct (String.eqb k k') eqn:E.
  - apply String.eqb_eq in E. subst k'. rewrite !fmap_cons. cbn [fst].
    rewrite bool_decide_eq_true_2; [done|by left].
  - apply String.eqb_neq in E. rewrite !fmap_cons. cbn [fst]. rewrite IH.
    case_bool_decide as Hin.
    + rewrite bool_decide_eq_true_2; [done|by right].
    + rewrite bool_decide_eq_false_2; [done|].
      intros [->|H]%elem_of_cons; done.
Qed.

(** Updating keeps the keys that were there, in their order, and appends the
    new ones. *)
Lemma dict_update_keys o : forall d,
  exists rest,
    (dict_update d o).*1 = (d.*1 ++ rest)%list
    /\ (forall k, k ∈ rest -> k ∈ o.*1 /\ k ∉ d.*1)
    /\ (NoDup d.*1 -> NoDup (d.*1 ++ rest)%list).
Proof.
  induction o as [|[k v] o IH]; intros d.
  - exists []. rewrite app_nil_r. split; [done|]. split; [|done].
    intros k Hk. by apply elem_of_nil in Hk.
  - unfold dict_update. simpl. fold (dict_update (dict_set k v d) o).
    destruct (IH (dict_set k v d)) as (rest & Hkeys & Hrest & Hnd).
    rewrite dict_set_keys in Hkeys, Hrest, Hnd.
    case_bool_decide as Hin.
    + exists rest. split; [done|]. split; [|done].
      intros k' Hk'. destruct (Hrest k' Hk') as [H1 H2].
      split; [by right|done].
    + exists (k :: rest). rewrite <- app_assoc in Hkeys, Hnd. simpl in *.
      split; [done|]. split.
      * intros k' [->|Hk']%elem_of_cons; [split; [by left|done]|].
        destruct (Hrest k' Hk') as [H1 H2]. split; [by right|].
        intros H3. apply H2. apply elem_of_app. by left.
      * intros Hd. apply Hnd. apply NoDup_app. split; [done|].
        split; [|apply NoDup_singleton].
        intros x Hx ->%list_elem_of_singleton. done.
Qed.

Section ContextResolverMore.

Context {parsers : Parsers}.

(** The overlay never reorders the loaded context: the loaded keys keep
    their positions at the front, the overlay's new keys follow, and no key
    appears twice. *)
Theorem overlay_keeps_key_order context_file default_context w C :
  load_context context_file w = Ok (VDict C) ->
  NoDup C.*1 ->
  exists d rest,
    generate_context context_file default_context w = Ok (VDict d)
    /\ d.*1 = (C.*1 ++ rest)%list
    /\ NoDup d.*1
    /\ forall k, k ∈ rest ->
         is_Some (default ∅ default_context !! k) /\ k ∉ C.*1.
Proof.
  intros Hload Hnd. unfold generate_context. rewrite Hload. simpl.
  unfold apply_defaults. destruct (truthy default_context).
  - destruct (dict_update_keys (map_to_list (default ∅ default_context)) C)
      as (rest & Hkeys & Hrest & Hnd').
    eexists _, rest. split; [done|]. split; [done|].
    split; [rewrite Hkeys; by apply Hnd'|].
    intros k Hk. destruct (Hrest k Hk) as [H1 H2]. split; [|done].
    apply list_elem_of_fmap in H1 as [[k' v'] [-> H1]].
    apply elem_of_map_to_list in H1. by eexists.
  - exists C, []. rewrite app_nil_r. split; [done|]. split; [done|].
    split; [done|]. intros k Hk. by apply elem_of_nil in Hk.
Qed.

(** A document whose top level is not a mapping comes back as it is when
    there is no overlay (or an empty one), and makes the call fail with
    [AttributeError] as soon as the overlay holds a key. *)
Theorem non_mapping_document context_file w doc :
  load_context context_file w = Ok doc ->
  (forall d, doc <> VDict d) ->
  generate_context context_file None w = Ok doc
  /\ generate_context context_file (Some ∅) w = Ok doc
  /\ forall (O : gmap string value) k v, O !! k = Some v ->
       generate_context context_file (Some O) w = Raise AttributeError.
Proof.
  intros Hload Hdoc. unfold generate_context. rewrite Hload. simpl.
  split; [done|]. split; [done|].
  intros O k v Hk. unfold apply_defaults.
  rewrite (truthy_lookup O k v Hk).
  destruct doc; try done. by destruct (Hdoc d).
Qed.

(** A source that opens is never displaced by the [cookiecutter.yml]
    fallback, and its extension alone chooses the parser: [.json] goes to
    the JSON parser and [.yml] to the YAML parser, whatever the content. *)
Theorem existing_source_parsed_by_extension context_file default_context w
  data :
  let source := default "cookiecutter.json" context_file in
  read_file w source = Ok data ->
  context_source context_file w = source
  /\ (file_ext_of source = ".json" ->
      generate_context context_file default_context w
      = obind (json_load data) (apply_defaults default_context))
  /\ (file_ext_of source = ".yml" ->
      generate_context context_file default_context w
      = obind (yaml_load data) (apply_defaults default_context)).
Proof.
  intros source Hread.
  assert (Hex : exists_ w source = true).
  { unfold exists_. apply bool_decide_eq_true. unfold read_file in Hread.
    destruct (stat w source); [by eexists|done]. }
  assert (Hsrc : context_source context_file w = source).
  { unfold context_source. fold source. by rewrite Hex. }
  split; [done|].
  unfold generate_context, load_context. rewrite Hsrc, Hread. simpl.
  split; intros ->; reflexivity.
Qed.

End ContextResolverMore.
(** ** [ensure_dir_is_templated] *)

Lemma append_cons a (s t : string) : String a s ++ t = String a (s ++ t).
Proof. reflexivity. Qed.

Lemma prefixb_spec p s : prefixb p s = true <-> exists b, s = p ++ b.
Proof.
  revert s. induction p as [|a p IH]; intros s.
  - split; [intros _; by exists s|done].
  - destruct s as [|c s]; simpl.
    + split; [done|]. intros [b Hb]. by rewrite append_cons in Hb.
    + rewrite andb_true_iff, Ascii.eqb_eq, IH. split.
      * intros [-> [b ->]]. by exists b.
      * intros [b Hb]. rewrite append_cons in Hb. inversion Hb. eauto.
Qed.

(** [contains] is the substring test of Python's [in]. *)
Lemma contains_spec needle s :
  contains needle s = true <-> exists a b, s = a ++ needle ++ b.
Proof.
  induction s as [|c s IH].
  - simpl. rewrite orb_false_r, prefixb_spec. split.
    + intros [b Hb]. by exists "", b.
    + intros [a [b Hab]]. destruct a as [|x a]; [by exists b|].
      by rewrite append_cons in Hab.
  - rewrite jinja_facts.contains_cons, orb_true_iff, prefixb_spec, IH. split.
    + intros [[b Hb]|[a [b Hab]]].
      * by exists "", b.
      * exists (String c a), b. by rewrite append_cons, Hab.
    + intros [a [b Hab]]. destruct a as [|x a].
      * left. by exists b.
      * right. rewrite append_cons in Hab. inversion Hab. eauto.
Qed.

(** [ensure_dir_is_templated] answers [True] exactly for the names that
    hold both [{{] and [}}] somewhere, in whatever order and however far
    apart, and raises [NonTemplatedInputDirException] for every other name;
    it never answers [False]. *)
Theorem ensure_dir_is_templated_spec dirname :
  let both :=
    (exists a b, dirname = a ++ "{{" ++ b)
    /\ (exists a b, dirname = a ++ "}}" ++ b) in
  (both -> ensure_dir_is_templated dirname = Ok true)
  /\ (~ both ->
      ensure_dir_is_templated dirname = Raise NonTemplatedInputDirException)
  /\ ensure_dir_is_templated dirname <> Ok false.
Proof.
  intros both. unfold ensure_dir_is_templated, is_templated.
  destruct (contains "{{" dirname) eqn:E1;
    destruct (contains "}}" dirname) eqn:E2; simpl.
  - split; [done|]. split; [|done]. intros Hn. destruct Hn.
    split; by apply contains_spec.
  - split; [|done]. intros [_ H2]. apply contains_spec in H2. congruence.
  - split; [|done]. intros [H1 _]. apply contains_spec in H1. congruence.
  - split; [|done]. intros [H1 _]. apply contains_spec in H1. congruence.
Qed.
(** ** The file system, continued *)

Lemma entry_set_idem c x es : entry_set c x (entry_set c x es) = entry_set c x es.
Proof.
  induction es as [|[n y] es IH]; simpl.
  - by rewrite String.eqb_refl.
  - destruct (String.eqb c n) eqn:E; simpl; rewrite E; [done|]. by rewrite IH.
Qed.

(** Creating a directory that is there changes nothing. *)
Lemma mkdirs_idem p : forall t t', mkdirs p t = Some t' -> mkdirs p t' = Some t'.
Proof.
  induction p as [|c p IH]; intros t t' H.
  - destruct t; simpl in H; [done|]. by inversion H.
  - destruct t as [|es]; simpl in H; [done|].
    destruct (mkdirs p (default (Dir []) (entry_get c es))) as [x|] eqn:E;
      [|done].
    inversion H; subst t'. simpl. rewrite entry_get_set_eq. simpl.
    rewrite (IH _ _ E). by rewrite entry_set_idem.
Qed.









(** ** [generate_file] and [render_and_create_dir] *)

Section GeneratorMore.

Context {services : Services}.




(** An input that is missing, or that is a directory, stops [generate_file]
    at the binary check with the [IOError] of opening it; nothing has been
    written by then, whatever the output path is. *)
Theorem generate_file_unopenable_input project_dir infile context env w
  rendered :
  render_string infile context = Ok rendered ->
  (stat w infile = None ->
   generate_file project_dir infile context env w
   = (Raise (IOError ENOENT), w))
  /\ (forall es, stat w infile = Some (Dir es) ->
        generate_file project_dir infile context env w
        = (Raise (IOError EISDIR), w)).
Proof.
  intros Hr. unfold generate_file, bind, lift, is_binary, read_file.
  rewrite Hr. split.
  - intros ->. done.
  - intros es ->. done.
Qed.

(** When [generate_file] completes on a text input, the output holds what
    the input's content, compiled as a template under the environment's
    settings, renders to with the context, under the input's permission
    bits. *)
Theorem text_file_rendered project_dir infile context env w w' data mode :
  stat w infile = Some (File data mode) ->
  is_binary infile w = Ok false ->
  resolve w (template_file env infile) = resolve w infile ->
  generate_file project_dir infile context env w = (Ok tt, w') ->
  exists rendered tmpl text,
    render_string infile context = Ok rendered
    /\ jinja.compile (jinja.keep_trailing_newline env)
         (jinja.strict_undefined env) data = Ok tmpl
    /\ jinja.render tmpl context = Ok text
    /\ stat w' (path.join project_dir rendered)
       = Some (File text (S_IMODE mode)).
Proof.
  intros Hin Hbin Hloader H.
  apply generate_file_ok in H as (rendered & binary & w1 & Hr & Hb & Hbody & Hc).
  rewrite Hbin in Hb. inversion Hb; subst binary.
  unfold render_file in Hbody.
  bind_inv Hbody tmpl w0 Hget. apply lift_ok in Hget as [Hget ->].
  bind_inv Hbody text w0 Hrender. apply lift_ok in Hrender as [Hrender ->].
  exists rendered, tmpl, text. split; [done|].
  unfold get_template in Hget.
  destruct (bool_decide _); [done|].
  unfold stat in Hget, Hin. rewrite Hloader, Hin in Hget.
  destruct (negb (readable mode)); [done|].
  destruct (negb (utf8_ok data)); [done|].
  split; [done|]. split; [done|].
  unfold unicode_write in Hbody. by eapply write_then_copymode.
Qed.

(** A name without template markers, carriage returns or a final newline
    renders to itself under every context that [render] accepts (one
    without a [self] key), so [render_and_create_dir] returns the
    normalised join of the output directory and the name as it is
    written. *)
Theorem plain_name_renders_to_itself name context :
  jinja.has_marker name = false ->
  has_cr name = false ->
  last_char name <> Some lf ->
  dict_get "self" context = None ->
  render_string name context = Ok name
  /\ forall output_dir w dir w',
       render_and_create_dir name context output_dir w = (Ok dir, w') ->
       dir = path.normpath (path.join output_dir name).
Proof.
  intros Hplain Hcr Hlast Hself.
  assert (Hr : render_string name context = Ok name).
  { unfold render_string, jinja.from_string.
    rewrite jinja_facts.compile_render_plain; [|done|done].
    by rewrite jinja_facts.preprocess_fixed. }
  split; [done|]. intros output_dir w dir w' H.
  apply render_and_create_dir_ok in H as (rendered & Hr' & -> & _).
  rewrite Hr in Hr'. by inversion Hr'.
Qed.

(** [render_and_create_dir] can be repeated: a second call with the same
    arguments, in the world the first one left, returns the same path and
    changes nothing. *)
Theorem render_and_create_dir_twice dirname context output_dir w dir w1 :
  render_and_create_dir dirname context output_dir w = (Ok dir, w1) ->
  render_and_create_dir dirname context output_dir w1 = (Ok dir, w1).
Proof.
  unfold render_and_create_dir, bind, lift, make_sure_path_exists, ret.
  destruct (render_string dirname context) as [rendered|e|l]; [|done..].
  destruct (mkdirs _ (tree w)) as [t|] eqn:E; [|done].
  intros H; inversion H; subst dir w1. rewrite resolve_set_tree. simpl.
  rewrite (mkdirs_idem _ _ _ E). by destruct w.
Qed.

End GeneratorMore.
(** ** What [generate_file] and [generate_files] leave alone *)



Lemma keeps_cwd_bind {A B} (m : M A) (k : A -> M B) :
  keeps_cwd m -> (forall a, keeps_cwd (k a)) -> keeps_cwd (bind m k).
Proof.
  intros Hm Hk w r w'. unfold bind.
  destruct (m w) as [[a|e|l] w1] eqn:E.
  - intros H. rewrite (Hk a _ _ _ H). by eapply Hm.
  - intros H; inversion H; subst. by eapply Hm.
  - intros H; inversion H; subst. by eapply Hm.
Qed.

Lemma keeps_cwd_lift {A} (f : World -> outcome A) : keeps_cwd (lift f).
Proof. intros w r w' H. by inversion H. Qed.

Lemma keeps_cwd_ret {A} (a : A) : keeps_cwd (ret a).
Proof. intros w r w' H. by inversion H. Qed.

(** Leaving a [work_in] block restores the working directory, whatever the
    block did and however it ended. *)
Lemma keeps_cwd_work_in {A} dirname (body : M A) :
  keeps_cwd (work_in dirname body).
Proof.
  intros w r w'. unfold work_in. destruct (is_dir _).
  - destruct (body _) as [r1 w1]. intros H. by inversion H.
  - intros H. by inversion H.
Qed.

Lemma keeps_cwd_make_sure_path_exists p : keeps_cwd (make_sure_path_exists p).
Proof.
  intros w r w'. unfold make_sure_path_exists.
  destruct (mkdirs _ _); intros H; by inversion H.
Qed.

Lemma keeps_cwd_render_and_create_dir dirname context output_dir :
  keeps_cwd (render_and_create_dir dirname context output_dir).
Proof.
  unfold render_and_create_dir.
  apply keeps_cwd_bind; [apply keeps_cwd_lift|]. intros rendered.
  apply keeps_cwd_bind; [apply keeps_cwd_make_sure_path_exists|]. intros u.
  apply keeps_cwd_ret.
Qed.

Section GeneratorFrame.

Context {services : Services}.


(** [generate_files] leaves the working directory where it was, on success
    and on every failure: each change of directory is made inside a
    [work_in] block. *)
Theorem generate_files_keeps_cwd fuel repo_dir context output_dir w r w' :
  generate_files fuel repo_dir context output_dir w = (r, w') ->
  cwd w' = cwd w.
Proof.
  revert w r w'. change (keeps_cwd (generate_files fuel repo_dir context output_dir)).
  unfold generate_files.
  apply keeps_cwd_bind; [apply keeps_cwd_lift|]. intros template_dir.
  apply keeps_cwd_bind; [apply keeps_cwd_lift|]. intros b.
  apply keeps_cwd_bind; [apply keeps_cwd_render_and_create_dir|].
  intros project_dir.
  apply keeps_cwd_bind; [apply keeps_cwd_lift|]. intros abs_dir.
  apply keeps_cwd_bind; [apply keeps_cwd_work_in|]. intros u1.
  apply keeps_cwd_bind; [apply keeps_cwd_work_in|]. intros u2.
  apply keeps_cwd_bind; [apply keeps_cwd_work_in|]. intros u3.
  apply keeps_cwd_ret.
Qed.

End GeneratorFrame.
(** ** Substitution *)

Module substitution.
Import jinja jinja_facts.

#[local] Arguments Ascii.eqb : simpl never.

Lemma lex_print_cons body a s :
  lex_print body (String a s) =
  if Ascii.eqb a "}" then
    match s with
    | String b s' =>
        if Ascii.eqb b "}" then
          match parse_name body with
          | Some name => omap (cons (Print name)) (lex s')
          | None => Beyond OutsideFragment
          end
        else lex_print (body ++ [a]) s
    | EmptyString => Raise TemplateSyntaxError
    end
  else lex_print (body ++ [a]) s.
Proof. reflexivity. Qed.

(** The body of a print statement is read up to the closing braces. *)
Lemma lex_print_body body : forall acc post,
  contains "}" body = false ->
  lex_print acc (body ++ "}}" ++ post) =
  match parse_name (acc ++ list_ascii_of_string body) with
  | Some name => omap (cons (Print name)) (lex post)
  | None => Beyond OutsideFragment
  end.
Proof.
  induction body as [|a body IH]; intros acc post H.
  - simpl list_ascii_of_string. rewrite app_nil_r. reflexivity.
  - rewrite contains_cons in H. apply orb_false_elim in H as [Ha H].
    simpl in Ha. rewrite andb_true_r, Ascii.eqb_sym in Ha.
    rewrite append_cons, lex_print_cons, Ha, IH; [|done].
    simpl list_ascii_of_string. by rewrite <- app_assoc.
Qed.

Lemma lex_print_head s : forall acc ps,
  lex_print acc s = Ok ps -> exists x ps', ps = Print x :: ps'.
Proof.
  induction s as [|a s IH]; intros acc ps H; [done|].
  rewrite lex_print_cons in H.
  destruct (Ascii.eqb a "}"); [|by eapply IH].
  destruct s as [|b s]; [done|].
  destruct (Ascii.eqb b "}"); [|by eapply IH].
  destruct (parse_name acc) as [x|]; [|done].
  destruct (lex s) as [ps'|e|l]; [|done..].
  inversion H. by eexists _, _.
Qed.

(** Plain text in front of a print statement is one piece of data. *)
Lemma lex_plain_then_print pre : forall rest,
  has_marker pre = false ->
  last_char pre <> Some "{"%char ->
  lex (pre ++ "{{" ++ rest) =
  omap (fun ps => match pre with
                  | EmptyString => ps
                  | _ => Data pre :: ps
                  end) (lex_print [] rest).
Proof.
  induction pre as [|a pre IH]; intros rest Hplain Hlast.
  - change (lex ("" ++ "{{" ++ rest)) with (lex_print [] rest).
    by destruct (lex_print [] rest).
  - apply has_marker_cons_false in Hplain as [Hhere Hplain].
    rewrite append_cons, lex_cons.
    destruct pre as [|b pre].
    + assert (Ha : Ascii.eqb a "{" = false).
      { apply Ascii.eqb_neq. intros ->. by apply Hlast. }
      rewrite Ha. change (lex ("" ++ "{{" ++ rest)) with (lex_print [] rest).
      destruct (lex_print [] rest) as [ps|e|l] eqn:E; [|done..].
      by destruct (lex_print_head _ _ _ E) as (x & ps' & ->).
    + assert (Hlast' : last_char (String b pre) <> Some "{"%char).
      { intros H. apply Hlast. unfold last_char in *. simpl in *.
        by rewrite H. }
      specialize (IH rest Hplain Hlast').
      rewrite append_cons. rewrite append_cons in IH.
      unfold marker_here in Hhere.
      assert (Hnext : (if Ascii.eqb a "{" then
                 if Ascii.eqb b "{" then lex_print [] (pre ++ "{{" ++ rest)
                 else if Ascii.eqb b "%" || Ascii.eqb b "#"
                      then Beyond OutsideFragment
                      else omap (add_data a)
                             (lex (String b (pre ++ "{{" ++ rest)))
               else omap (add_data a) (lex (String b (pre ++ "{{" ++ rest))))
              = omap (add_data a) (lex (String b (pre ++ "{{" ++ rest)))).
      { destruct (Ascii.eqb a "{"); [|done]. simpl in Hhere.
        apply orb_false_elim in Hhere as [Hh H3].
        apply orb_false_elim in Hh as [H1 H2]. by rewrite H1, H2, H3. }
      rewrite Hnext, IH. by destruct (lex_print [] rest).
Qed.

Lemma obind_Ok {A B} (a : A) (k : A -> outcome B) : obind (Ok a) k = k a.
Proof. reflexivity. Qed.

Lemma render_pieces_data strict context d ps :
  render_pieces strict context (Data d :: ps)
  = omap (fun t => d ++ t) (render_pieces strict context ps).
Proof. simpl. by destruct (render_pieces strict context ps). Qed.

Lemma append_assoc (a b c : string) : (a ++ b) ++ c = a ++ b ++ c.
Proof.
  induction a as [|x a IH]; [done|]. by rewrite !append_cons, IH.
Qed.

(** Rendering [pre{{ x }}post], where [pre] and [post] are plain text:
    the print statement is replaced by the text of the context's value for
    [x], and by nothing when the context has no [x]. *)
Lemma render_one_variable strict context pre body x post :
  has_marker pre = false ->
  last_char pre <> Some "{"%char ->
  contains "}" body = false ->
  parse_name (list_ascii_of_string body) = Some x ->
  has_marker post = false ->
  obind (lex (pre ++ "{{" ++ body ++ "}}" ++ post))
        (render_pieces strict context)
  = obind (render_piece strict context (Print x))
          (fun t => Ok (pre ++ t ++ post)).
Proof.
  intros Hpre Hlast Hbody Hname Hpost.
  rewrite lex_plain_then_print, lex_print_body by done.
  simpl app. rewrite Hname, (lex_plain post Hpost). simpl omap at 1.
  assert (Hrest : render_pieces strict context
                    (Print x :: match post with
                                | EmptyString => []
                                | _ => [Data post]
                                end)
                  = obind (render_piece strict context (Print x))
                      (fun t => Ok (t ++ post))).
  { change (render_pieces strict context (Print x :: ?ps)) with
      (obind (render_piece strict context (Print x)) (fun a =>
       obind (render_pieces strict context ps) (fun b => Ok (a ++ b)))).
    by rewrite render_plain. }
  destruct pre as [|c pre]; rewrite obind_Ok.
  - rewrite Hrest. by destruct (render_piece strict context (Print x)).
  - rewrite render_pieces_data, Hrest.
    by destruct (render_piece strict context (Print x)).
Qed.

End substitution.

Section GeneratorSubstitution.

Context {services : Services}.

(** A name of the form [pre{{ x }}post], with plain text around one print
    statement, renders to [pre], the text of the context's value for [x],
    and [post], under every context that [render] accepts (one without a
    [self] key); [render_and_create_dir] therefore returns the normalised
    join of the output directory and that rendered name. *)
Theorem print_statement_substituted context pre body x post v text :
  let name := pre ++ "{{" ++ body ++ "}}" ++ post in
  jinja.has_marker pre = false ->
  last_char pre <> Some "{"%char ->
  contains "}" body = false ->
  jinja.parse_name (list_ascii_of_string body) = Some x ->
  jinja.has_marker post = false ->
  has_cr name = false ->
  last_char name <> Some lf ->
  dict_get "self" context = None ->
  dict_get x context = Some v ->
  jinja.to_text v = Ok text ->
  render_string name context = Ok (pre ++ text ++ post)
  /\ forall output_dir w dir w',
       render_and_create_dir name context output_dir w = (Ok dir, w') ->
       dir = path.normpath (path.join output_dir (pre ++ text ++ post)).
Proof.
  intros name Hpre Hlast Hbody Hname Hpost Hcr Hnl Hself Hx Htext.
  assert (Hr : render_string name context = Ok (pre ++ text ++ post)).
  { unfold render_string, jinja.from_string, jinja.compile.
    rewrite jinja_facts.preprocess_fixed by done.
    pose proof (substitution.render_one_variable false context pre body x
                  post Hpre Hlast Hbody Hname Hpost) as H.
    fold name in H. simpl in H. rewrite Hx, Htext in H. simpl in H.
    destruct (jinja.lex name) as [ps|e|l]; [|done..]. simpl in H |- *.
    by rewrite jinja_facts.render_no_self. }
  split; [done|]. intros output_dir w dir w' H.
  apply render_and_create_dir_ok in H as (rendered & Hr' & -> & _).
  rewrite Hr in Hr'. by inversion Hr'.
Qed.

(** A binary input is never copied onto itself: when the output path
    resolves to the input file, [generate_file] stops with the error of
    [shutil.copyfile] and the file is as it was. *)
Theorem binary_file_onto_itself project_dir infile context env w rendered :
  render_string infile context = Ok rendered ->
  is_binary infile w = Ok true ->
  resolve w (path.join project_dir rendered) = resolve w infile ->
  generate_file project_dir infile context env w = (Raise SameFileError, w).
Proof.
  intros Hr Hb Hsame.
  unfold generate_file, bind at 1, lift at 1. rewrite Hr.
  unfold bind at 1, lift at 1. rewrite Hb.
  unfold bind at 1, copyfile. rewrite Hsame.
  rewrite bool_decide_eq_true_2 by done.
  assert (Hex : exists_ w infile = true).
  { unfold exists_. apply bool_decide_eq_true.
    unfold is_binary, read_file in Hb.
    destruct (stat w infile); [by eexists|done]. }
  by rewrite Hex.
Qed.

(** A context that holds the key [self] cannot be rendered at all: once
    the path template has compiled, unpacking the context into the keyword
    arguments of [render] raises [TypeError], in [render_and_create_dir] and
    in [generate_file] alike, and nothing has been created or written. *)
Theorem self_key_rejected context v name tmpl :
  dict_get "self" context = Some v ->
  jinja.from_string name = Ok tmpl ->
  render_string name context = Raise TypeError
  /\ (forall output_dir w,
        render_and_create_dir name context output_dir w
        = (Raise TypeError, w))
  /\ (forall project_dir env w,
        generate_file project_dir name context env w = (Raise TypeError, w)).
Proof.
  intros Hself Hcompile.
  assert (Hr : render_string name context = Raise TypeError).
  { unfold render_string. rewrite Hcompile. simpl. unfold jinja.render.
    by rewrite Hself. }
  split; [done|]. split.
  - intros output_dir w. unfold render_and_create_dir, bind, lift.
    by rewrite Hr.
  - intros project_dir env w. unfold generate_file, bind, lift. by rewrite Hr.
Qed.

End GeneratorSubstitution.
(** ** The walk *)

Module walk_facts.
Import jinja jinja_facts.

#[local] Arguments Ascii.eqb : simpl never.

Lemma isabs_spec p : path.isabs p = true <-> exists s, p = String "/" s.
Proof.
  unfold path.isabs. rewrite prefixb_spec. split.
  - intros [b ->]. by exists b.
  - intros [s ->]. by exists s.
Qed.

Lemma last_char_cons a s : is_Some (last_char (String a s)).
Proof.
  unfold last_char. simpl. generalize (list_ascii_of_string s). intros l.
  revert a. induction l as [|b l IH]; intros a; [by eexists|]. apply IH.
Qed.

(** Joining onto an absolute path gives an absolute path. *)
Lemma join_isabs a b : path.isabs a = true -> path.isabs (path.join a b) = true.
Proof.
  intros Ha. unfold path.join. destruct (path.isabs b) eqn:Hb; [done|].
  apply isabs_spec in Ha as [s ->].
  change (String.eqb (String "/" s) "") with false. cbv iota.
  destruct (last_char_cons "/" s) as [c ->].
  destruct (Ascii.eqb c "/"); apply isabs_spec; by eexists.
Qed.

Lemma normpath_isabs p : path.isabs p = true -> path.isabs (path.normpath p) = true.
Proof.
  intros Hp. pose proof Hp as Hp'. apply isabs_spec in Hp' as [s ->].
  unfold path.normpath.
  change (String.eqb (String "/" s) "") with false. cbv iota zeta.
  change (prefixb "/" (String "/" s)) with true. cbv iota.
  destruct (prefixb "//" (String "/" s) && negb (prefixb "///" (String "/" s)));
    apply isabs_spec.
  - change ("//" ++ ?x) with (String "/" (String "/" x)). by eexists.
  - change ("/" ++ ?x) with (String "/" x). by eexists.
Qed.

(** [os.path.abspath] answers an absolute path. *)
Lemma abspath_isabs w p : path.isabs (path.abspath (getcwd w) p) = true.
Proof.
  unfold path.abspath. apply normpath_isabs.
  destruct (path.isabs p) eqn:Hp; [done|]. apply join_isabs.
  apply isabs_spec. unfold getcwd. by eexists.
Qed.

Lemma render_add_data strict context a ps :
  render_pieces strict context (add_data a ps)
  = omap (String a) (render_pieces strict context ps).
Proof.
  destruct ps as [|[d|x] ps]; simpl.
  - done.
  - by destruct (render_pieces strict context ps).
  - destruct (render_piece strict context (Print x)); [|done..]. simpl.
    by destruct (render_pieces strict context ps).
Qed.

Lemma preprocess_slash keep s :
  exists u, preprocess keep (String "/" s) = String "/" u.
Proof.
  unfold preprocess.
  change (unify_newlines (String "/" s)) with (String "/" (unify_newlines s)).
  destruct keep; [by eexists|].
  destruct (unify_newlines s) as [|b u]; [by eexists|].
  change (drop_final_newline (String "/" (String b u))) with
    (String "/" (drop_final_newline (String b u))). by eexists.
Qed.

(** An absolute template renders, when it renders, to an absolute path. *)
Lemma render_string_isabs name context rendered :
  path.isabs name = true ->
  render_string name context = Ok rendered ->
  path.isabs rendered = true.
Proof.
  intros [s ->]%isabs_spec. unfold render_string, from_string, compile.
  destruct (preprocess_slash false s) as [u ->].
  change (lex (String "/" u)) with (omap (add_data "/") (lex u)).
  destruct (lex u) as [ps|e|l]; [|done..]. simpl. unfold render. simpl.
  destruct (dict_get "self" context); [done|]. rewrite render_add_data.
  destruct (render_pieces false context ps) as [t|e|l]; [|done..].
  intros H. inversion H. apply isabs_spec. by eexists.
Qed.




End walk_facts.

Section Walk.

Context {services : Services}.

(** For an absolute directory name the output directory plays no part. *)
Lemma render_and_create_dir_absolute dirname context out1 out2 w :
  path.isabs dirname = true ->
  render_and_create_dir dirname context out1 w
  = render_and_create_dir dirname context out2 w.
Proof.
  intros Habs. unfold render_and_create_dir, bind, lift.
  destruct (render_string dirname context) as [rendered|e|l] eqn:Hr; [|done..].
  pose proof (walk_facts.render_string_isabs _ _ _ Habs Hr) as Hrabs.
  unfold path.join. by rewrite Hrabs.
Qed.

(** The [output_dir] that [generate_files] hands to the loop has no effect
    on the walk: the project directory comes from [os.path.abspath], so
    every directory path the loop renders is absolute, and joining
    [output_dir] with an absolute path discards [output_dir]. *)
Theorem walk_ignores_output_dir fuel w0 project_dir context out1 out2 env :
  forall root w,
    walk fuel (path.abspath (getcwd w0) project_dir) context out1 env root w
    = walk fuel (path.abspath (getcwd w0) project_dir) context out2 env root w.
Proof.
  induction fuel as [|n IH]; intros root w; [done|].
  rewrite !walk_S. destruct (listdir w root) as [names|]; [|done].
  apply bind_ext.
  - apply for_each_ext. intros d w1.
    apply bind_ext; [|done].
    apply render_and_create_dir_absolute.
    apply walk_facts.join_isabs, walk_facts.abspath_isabs.
  - intros u1 w1. apply bind_ext; [done|].
    intros u2 w2. apply for_each_ext. intros d w3. apply IH.
Qed.


End Walk.

(** ** The further properties at work on the samples *)

#[local] Existing Instance sample_parsers.
#[local] Existing Instance demo_services.

Lemma overlay_keeps_key_order_witness :
  exists d rest,
    generate_context (Some "nested.yml")
      (Some {[ "project_name" := VStr "mine" ]}) context_world = Ok (VDict d)
    /\ d.*1 = (["author"] ++ rest)%list
    /\ NoDup d.*1
    /\ forall k, k ∈ rest ->
         is_Some (default (∅ : gmap string value)
                    (Some {[ "project_name" := VStr "mine" ]}) !! k)
         /\ k ∉ ["author"].
Proof.
  apply (overlay_keeps_key_order (Some "nested.yml")
           (Some {[ "project_name" := VStr "mine" ]}) context_world
           [("author", VDict [("name", VStr "Ann");
                              ("email", VStr "ann@example.org")])]).
  - vm_compute. reflexivity.
  - apply NoDup_singleton.
Defined.

Lemma non_mapping_document_witness :
  generate_context (Some "list.json") None defaults_world = Ok (VList [])
  /\ generate_context (Some "list.json") (Some ∅) defaults_world
     = Ok (VList [])
  /\ forall (O : gmap string value) k v, O !! k = Some v ->
       generate_context (Some "list.json") (Some O) defaults_world
       = Raise AttributeError.
Proof.
  apply (non_mapping_document (Some "list.json") defaults_world (VList [])).
  - vm_compute. reflexivity.
  - discriminate.
Defined.

Lemma existing_source_parsed_by_extension_witness :
  context_source None defaults_world = "cookiecutter.json"
  /\ (file_ext_of "cookiecutter.json" = ".json" ->
      generate_context None None defaults_world
      = obind (json_load "{}") (apply_defaults None))
  /\ (file_ext_of "cookiecutter.json" = ".yml" ->
      generate_context None None defaults_world
      = obind (yaml_load "{}") (apply_defaults None)).
Proof.
  apply (existing_source_parsed_by_extension None None defaults_world "{}").
  vm_compute. reflexivity.
Defined.

Lemma ensure_dir_is_templated_spec_witness :
  ensure_dir_is_templated "}}name{{" = Ok true
  /\ ensure_dir_is_templated "plainname" = Raise NonTemplatedInputDirException.
Proof.
  split.
  - apply (ensure_dir_is_templated_spec "}}name{{"). split.
    + by exists "}}name", "".
    + by exists "", "name{{".
  - apply (ensure_dir_is_templated_spec "plainname").
    intros [H _]. apply contains_spec in H. vm_compute in H. discriminate.
Defined.


Lemma generate_file_unopenable_input_witness :
  generate_file "/out" "./nothing.bin" demo_context
    (jinja.default_environment ".") file_world
  = (Raise (IOError ENOENT), file_world)
  /\ generate_file "/out" "../out" demo_context
       (jinja.default_environment ".") file_world
     = (Raise (IOError EISDIR), file_world).
Proof.
  split.
  - apply (generate_file_unopenable_input "/out" "./nothing.bin" demo_context
             (jinja.default_environment ".") file_world "./nothing.bin").
    + vm_compute. reflexivity.
    + vm_compute. reflexivity.
  - destruct (generate_file_unopenable_input "/out" "../out" demo_context
                (jinja.default_environment ".") file_world "../out")
      as [_ H].
    + vm_compute. reflexivity.
    + apply (H []). vm_compute. reflexivity.
Defined.

Lemma text_file_rendered_witness :
  exists rendered tmpl text,
    render_string "./{{name}}.txt" [("name", VStr "Ann")] = Ok rendered
    /\ jinja.compile false false "hi {{name}}" = Ok tmpl
    /\ jinja.render tmpl [("name", VStr "Ann")] = Ok text
    /\ stat (file_world_with "Ann.txt" "hi Ann" 420)
         (path.join "/out" rendered)
       = Some (File text (S_IMODE 420)).
Proof.
  apply (text_file_rendered "/out" "./{{name}}.txt" [("name", VStr "Ann")]
           (jinja.default_environment ".") file_world
           (file_world_with "Ann.txt" "hi Ann" 420) "hi {{name}}" 420).
  - vm_compute. reflexivity.
  - vm_compute. reflexivity.
  - vm_compute. reflexivity.
  - vm_compute. reflexivity.
Defined.

Lemma plain_name_renders_to_itself_witness :
  render_string "docs" demo_context = Ok "docs"
  /\ forall output_dir w dir w',
       render_and_create_dir "docs" demo_context output_dir w = (Ok dir, w') ->
       dir = path.normpath (path.join output_dir "docs").
Proof.
  apply (plain_name_renders_to_itself "docs" demo_context).
  - vm_compute. reflexivity.
  - vm_compute. reflexivity.
  - vm_compute. discriminate.
  - vm_compute. reflexivity.
Defined.

Lemma render_and_create_dir_twice_witness :
  render_and_create_dir "{{project_name}}" demo_context "."
    (rooted_world "exit 0") = (Ok "demo", rooted_world "exit 0").
Proof.
  apply (render_and_create_dir_twice "{{project_name}}" demo_context "."
           (demo_world "exit 0" "{{project_name}}")).
  vm_compute. reflexivity.
Defined.


Lemma generate_files_keeps_cwd_witness :
  cwd generated_world = cwd (demo_world "exit 0" "{{project_name}}").
Proof.
  apply (generate_files_keeps_cwd 5 "/repo" (Some demo_context) "."
           (demo_world "exit 0" "{{project_name}}") (Ok VNone)
           generated_world).
  vm_compute. reflexivity.
Defined.

Lemma print_statement_substituted_witness :
  render_string ("" ++ "{{" ++ " project_name " ++ "}}" ++ "-site")
    demo_context = Ok ("" ++ "demo" ++ "-site")
  /\ forall output_dir w dir w',
       render_and_create_dir ("" ++ "{{" ++ " project_name " ++ "}}" ++ "-site")
         demo_context output_dir w = (Ok dir, w') ->
       dir = path.normpath (path.join output_dir ("" ++ "demo" ++ "-site")).
Proof.
  apply (print_statement_substituted demo_context "" " project_name "
           "project_name" "-site" (VStr "demo") "demo").
  - vm_compute. reflexivity.
  - vm_compute. discriminate.
  - vm_compute. reflexivity.
  - vm_compute. reflexivity.
  - vm_compute. reflexivity.
  - vm_compute. reflexivity.
  - vm_compute. discriminate.
  - vm_compute. reflexivity.
  - vm_compute. reflexivity.
  - vm_compute. reflexivity.
Defined.

Lemma binary_file_onto_itself_witness :
  generate_file "." "./logo.png" demo_context (jinja.default_environment ".")
    file_world = (Raise SameFileError, file_world).
Proof.
  apply (binary_file_onto_itself "." "./logo.png" demo_context
           (jinja.default_environment ".") file_world "./logo.png").
  - vm_compute. reflexivity.
  - vm_compute. reflexivity.
  - vm_compute. reflexivity.
Defined.


Lemma self_key_rejected_witness :
  render_string "docs" [("self", VStr "x")] = Raise TypeError
  /\ (forall output_dir w,
        render_and_create_dir "docs" [("self", VStr "x")] output_dir w
        = (Raise TypeError, w))
  /\ (forall project_dir env w,
        generate_file project_dir "docs" [("self", VStr "x")] env w
        = (Raise TypeError, w)).
Proof.
  apply (self_key_rejected [("self", VStr "x")] (VStr "x") "docs"
           (jinja.mkTemplate [jinja.Data "docs"] false)).
  - vm_compute. reflexivity.
  - vm_compute. reflexivity.
Defined.
